(** * SAML identity-provider core of casdoor: [object/saml_idp.go]

    A shallow embedding of [NewSamlResponse], [X509Key.GetKeyPair],
    [GetSamlMeta], [GetSamlResponse] and [NewSamlResponse11], and the
    properties the specification states about them.

    Conventions.
    - Go [string] is [string]; [[]byte] is [list byte].
    - A Go [error] is its message ([error := string]); a nil error is
      [None]. A Go pair [(v, err)] is a pair; [result] is used where
      the value is dropped on error.
    - A Go call either returns or panics: [outcome].
    - [*etree.Element] values are pointers into the one document a call
      builds. The document is a tree, a pointer is the path of child
      indices from its root, and every etree method is a state
      transformer on the document.
    - [time.Now] and [uuid.NewV4] read the [World]: the n-th call reads
      the n-th value of a stream, so a fixed clock is a constant stream.
    - The standard library codecs, the signing library and the helpers
      of package [object] that live in other files are fields of the
      [Platform] class. [encoding/json] and the etree methods are
      written out, as are the structs the file reads, which are declared
      in other files.

    The first part holds the definitions, the second their
    properties. *)

From Stdlib Require Import String Ascii List ZArith Bool Lia.
From Stdlib.Strings Require Import Byte.
Import ListNotations.
Local Open Scope list_scope.
Local Open Scope string_scope.

Set Warnings "-register-all".

Set Implicit Arguments.

(** ** Results of Go calls *)

Definition error := string.

(** [(T, error)] with the Go convention that the value is meaningless
    when the error is set. *)
Inductive result (A : Type) : Type :=
| Ok (a : A)
| Err (err : error).
Arguments Ok {A} a.
Arguments Err {A} err.

Inductive outcome (A : Type) : Type :=
| Return (a : A)
| Panic (v : string).
Arguments Return {A} a.
Arguments Panic {A} v.

(** The value of a run-time nil-pointer panic. *)
Definition nilDereference : string :=
  "runtime error: invalid memory address or nil pointer dereference".

(** ** Time and identifiers *)

(** An instant is its number of nanoseconds since the Unix epoch, a
    [time.Duration] a number of nanoseconds. *)
Definition Time := Z.
Definition Duration := Z.

Module time.
Definition Nanosecond : Duration := 1%Z.
Definition Second : Duration := (1000000000 * Nanosecond)%Z.
Definition Minute : Duration := (60 * Second)%Z.
Definition Hour : Duration := (60 * Minute)%Z.
Definition Add (t : Time) (d : Duration) : Time := (t + d)%Z.
Definition Sub (t u : Time) : Duration := (t - u)%Z.
Definition After (t u : Time) : bool := (u <? t)%Z.
End time.

Record World : Type := mkWorld {
  clock : nat -> Time;      (* successive readings of time.Now() *)
  ticks : nat;              (* readings taken so far *)
  entropy : nat -> string;  (* successive values of uuid.NewV4() *)
  draws : nat               (* identifiers drawn so far *)
}.

(** ** The document tree of [github.com/beevik/etree] *)

Module etree.

Record Attr : Type := mkAttr {
  ASpace : string;
  Key : string;
  Value : string
}.

Inductive Element : Type :=
| Elem (space tag : string) (attr : list Attr) (child : list Token)
with Token : Type :=
| TokElement (e : Element)
| TokCharData (data : string).

Definition Space (e : Element) : string := let 'Elem s _ _ _ := e in s.
Definition Tag (e : Element) : string := let 'Elem _ t _ _ := e in t.
Definition Attrs (e : Element) : list Attr := let 'Elem _ _ a _ := e in a.
Definition Child (e : Element) : list Token := let 'Elem _ _ _ c := e in c.

(** [spaceDecompose]: split a qualified name at its first colon. *)
Fixpoint splitColon (str : string) : option (string * string) :=
  match str with
  | EmptyString => None
  | String c rest =>
      if Ascii.eqb c ":" then Some (EmptyString, rest)
      else match splitColon rest with
           | Some (space, key) => Some (String c space, key)
           | None => None
           end
  end.

Definition spaceDecompose (str : string) : string * string :=
  match splitColon str with
  | Some p => p
  | None => ("", str)
  end.

Definition spaceMatch (a b : string) : bool :=
  if a =? "" then true else a =? b.

(** [createAttr]: overwrite the value of an attribute with the same
    space and key, or append a new attribute. *)
Fixpoint setAttr (space key value : string) (l : list Attr) : list Attr :=
  match l with
  | [] => [mkAttr space key value]
  | a :: l' =>
      if (space =? ASpace a) && (key =? Key a)
      then mkAttr (ASpace a) (Key a) value :: l'
      else a :: setAttr space key value l'
  end.

Definition createAttr (space key value : string) (e : Element) : Element :=
  let 'Elem s t a c := e in Elem s t (setAttr space key value a) c.

Definition addChild (t : Token) (e : Element) : Element :=
  let 'Elem s g a c := e in Elem s g a (c ++ [t])%list.

Definition newElement (space tag : string) : Element := Elem space tag [] [].

(** [replaceText 0 text]: the run of character data that opens the
    element is replaced by [text]; an empty [text] leaves none. *)
Fixpoint dropCharData (c : list Token) : list Token :=
  match c with
  | TokCharData _ :: c' => dropCharData c'
  | _ => c
  end.

Definition charData (text : string) : list Token :=
  if text =? "" then [] else [TokCharData text].

Definition setText (text : string) (e : Element) : Element :=
  let 'Elem s g a c := e in Elem s g a (charData text ++ dropCharData c)%list.

(** [Text]: the character data that opens the element. *)
Fixpoint leadingText (c : list Token) : string :=
  match c with
  | TokCharData d :: c' => d ++ leadingText c'
  | _ => ""
  end.

Definition Text (e : Element) : string := leadingText (Child e).

(** [SelectAttr] and [SelectAttrValue]. *)
Definition SelectAttr (e : Element) (key : string) : option Attr :=
  let '(space, skey) := spaceDecompose key in
  find (fun a => spaceMatch space (ASpace a) && (skey =? Key a)) (Attrs e).

Definition SelectAttrValue (e : Element) (key dflt : string) : string :=
  match SelectAttr e key with
  | Some a => Value a
  | None => dflt
  end.

(** [ChildElements], [SelectElements] and [SelectElement]. *)
Fixpoint ChildElements_of (c : list Token) : list Element :=
  match c with
  | [] => []
  | TokElement e :: c' => e :: ChildElements_of c'
  | TokCharData _ :: c' => ChildElements_of c'
  end.

Definition ChildElements (e : Element) : list Element :=
  ChildElements_of (Child e).

Definition SelectElements (e : Element) (tag : string) : list Element :=
  let '(space, stag) := spaceDecompose tag in
  filter (fun c => spaceMatch space (Space c) && (stag =? Tag c))
         (ChildElements e).

Definition SelectElement (e : Element) (tag : string) : option Element :=
  hd_error (SelectElements e tag).

(** [FindElement] restricted to paths of child tags. *)
Fixpoint FindElementPath (e : Element) (tags : list string) : option Element :=
  match tags with
  | [] => Some e
  | tag :: tags' =>
      match SelectElement e tag with
      | Some c => FindElementPath c tags'
      | None => None
      end
  end.

(** *** Pointers into the document *)

Definition ptr : Type := list nat.

Fixpoint updChild (i : nat) (f : Element -> Element) (c : list Token)
  : list Token :=
  match c with
  | [] => []
  | t :: c' =>
      match i with
      | O => match t with
             | TokElement e => TokElement (f e)
             | TokCharData _ => t
             end :: c'
      | S i' => t :: updChild i' f c'
      end
  end.

Fixpoint updateAt (p : ptr) (f : Element -> Element) (e : Element)
  : Element :=
  match p with
  | [] => f e
  | i :: p' =>
      let 'Elem s g a c := e in Elem s g a (updChild i (updateAt p' f) c)
  end.

Fixpoint deref (p : ptr) (e : Element) : option Element :=
  match p with
  | [] => Some e
  | i :: p' =>
      match nth_error (Child e) i with
      | Some (TokElement c) => deref p' c
      | _ => None
      end
  end.

(** [InsertChildAt] for a token that has no parent yet: an index past
    the end appends. *)
Fixpoint insertAt (index : nat) (t : Token) (c : list Token) : list Token :=
  match index, c with
  | O, _ => t :: c
  | S _, [] => [t]
  | S i, x :: c' => x :: insertAt i t c'
  end.

Definition insertChildAt (index : nat) (t : Token) (e : Element) : Element :=
  let 'Elem s g a c := e in Elem s g a (insertAt index t c).

(** [appendChildren]: [addChild] for each token of a list in turn. *)
Definition appendChildren (ts : list Token) (e : Element) : Element :=
  let 'Elem s g a c := e in Elem s g a (c ++ ts)%list.

End etree.

(** ** Records of package [object] and of [go-saml] *)

(** Modelled from the spec: the [User] struct is declared outside
    [object/saml_idp.go]. It has the fields the file reads ([Name],
    [Email], [DisplayName]) and the [roles] sequence of the spec's
    Principal, under the JSON keys [name], [email], [displayName] and
    [roles]. *)
Module User.
Record t : Type := mk {
  Name : string;
  Email : string;
  DisplayName : string;
  Roles : list string
}.
End User.
Definition User : Type := User.t.

(** Modelled from the spec: the [Application] struct is declared outside
    [object/saml_idp.go]; these are the fields the file reads. *)
Module Application.
Record t : Type := mk {
  Owner : string;
  Name : string;
  RedirectUris : list string;
  SamlReplyUrl : string;
  EnableSamlCompress : bool
}.
End Application.
Definition Application : Type := Application.t.

(** Modelled from the spec: the [Cert] struct is declared outside
    [object/saml_idp.go]; these are the fields the file reads. *)
Module Cert.
Record t : Type := mk {
  Certificate : string;
  PrivateKey : string
}.
End Cert.
Definition Cert : Type := Cert.t.

(** [saml.AuthnRequest] of [github.com/RobotsAndPencils/go-saml],
    restricted to the fields the file reads or writes. *)
Module saml.
Record Issuer : Type := mkIssuer { Url : string }.
Record AuthnRequest : Type := mkAuthnRequest {
  ID : string;
  AssertionConsumerServiceURL : string;
  Issuer_ : Issuer
}.
End saml.

(** [pem.Block], restricted to [Bytes]. *)
Module pem.
Record Block : Type := mkBlock { Bytes : list byte }.
End pem.

(** [*rsa.PrivateKey]: a parsed key, kept as its encoding. *)
Module rsa.
Record PrivateKey : Type := mkPrivateKey { der : list byte }.
End rsa.

(** Lines 114-117. *)
Record X509Key : Type := mkX509Key {
  X509Certificate : string;
  PrivateKey : string
}.

(** [dsig.X509KeyStore], an interface with the one method [GetKeyPair]:
    a value of it is what that method returns. *)
Record X509KeyStore : Type := mkX509KeyStore {
  GetKeyPair : option rsa.PrivateKey * list byte * option error
}.

(** [crypto.Hash] values the file names or replaces. *)
Inductive Hash : Type := SHA1 | SHA256.

(** [dsig.SigningContext], restricted to what the file sets. *)
Record SigningContext : Type := mkSigningContext {
  KeyStore : X509KeyStore;
  Hash_ : Hash
}.

(** [dsig.NewDefaultSigningContext]: the default digest is SHA-256. *)
Definition NewDefaultSigningContext (ks : X509KeyStore) : SigningContext :=
  mkSigningContext ks SHA256.

(** ** [encoding/json], on the values of documents

    [json.Marshal] followed by [json.Unmarshal] is modelled on the JSON
    value the bytes denote. *)
Module json.

Inductive Value : Type :=
| Null
| Bool (b : bool)
| Number (n : Z)
| Str (s : string)
| Array (l : list Value)
| Object (members : list (string * Value)).

(** The name of a value in an [UnmarshalTypeError]. *)
Definition kind (v : Value) : string :=
  match v with
  | Null => "null"
  | Bool _ => "bool"
  | Number _ => "number"
  | Str _ => "string"
  | Array _ => "array"
  | Object _ => "object"
  end.

Definition UnmarshalTypeError (v : Value) : error :=
  "json: cannot unmarshal " ++ kind v ++ " into Go value of type string".

(** A Go [map[string]string]: keys are unique. *)
Definition Map : Type := list (string * string).

Fixpoint insert (k v : string) (m : Map) : Map :=
  match m with
  | [] => [(k, v)]
  | (k', v') :: m' =>
      if k =? k' then (k, v) :: m' else (k', v') :: insert k v m'
  end.

(** Modelled from the spec: [json.Marshal] of a [User] follows the
    struct declaration, which is outside [object/saml_idp.go]: one
    member per field of the Principal; a nil slice is [null]. *)
Definition Marshal (user : User) : Value * option error :=
  (Object [("name", Str (User.Name user));
           ("email", Str (User.Email user));
           ("displayName", Str (User.DisplayName user));
           ("roles", match User.Roles user with
                     | [] => Null
                     | l => Array (map Str l)
                     end)],
   None).

(** [json.Unmarshal(data, &tmp)] for [tmp : map[string]string]. Each
    member stores a string; a string and a null are stored without an
    error, anything else stores the empty string and reports an
    [UnmarshalTypeError]. Decoding goes on after an error and the
    first error is returned. *)
Definition first (e1 e2 : option error) : option error :=
  match e1 with
  | Some _ => e1
  | None => e2
  end.

Fixpoint store (members : list (string * Value)) (m : Map)
  (err : option error) : Map * option error :=
  match members with
  | [] => (m, err)
  | (k, v) :: rest =>
      match v with
      | Str s => store rest (insert k s m) err
      | Null => store rest (insert k "" m) err
      | _ => store rest (insert k "" m)
                   (first err (Some (UnmarshalTypeError v)))
      end
  end.

Definition Unmarshal (data : Value) (tmp : Map) : Map * option error :=
  match data with
  | Object members => store members tmp None
  | Null => ([], None)
  | v => (tmp, Some (UnmarshalTypeError v))
  end.

End json.

(** ** The metadata document (lines 125-184) *)

Module xml.
Record Name : Type := mkName { Space : string; Local : string }.
Definition noName : Name := mkName "" "".
End xml.

Record X509Certificate_ : Type := mkX509Certificate {
  X509Certificate_XMLName : xml.Name;
  Cert_ : string
}.

Record X509Data : Type := mkX509Data {
  X509Data_XMLName : xml.Name;
  X509Data_X509Certificate : X509Certificate_
}.

Record KeyInfo : Type := mkKeyInfo {
  KeyInfo_XMLName : xml.Name;
  KeyInfo_X509Data : X509Data
}.

Record KeyDescriptor : Type := mkKeyDescriptor {
  KeyDescriptor_XMLName : xml.Name;
  Use : string;
  KeyDescriptor_KeyInfo : KeyInfo
}.

Record NameIDFormat : Type := mkNameIDFormat {
  NameIDFormat_XMLName : xml.Name;
  NameIDFormat_Value : string
}.

Record SingleSignOnService : Type := mkSingleSignOnService {
  SingleSignOnService_XMLName : xml.Name;
  Binding : string;
  Location : string
}.

Record Attribute : Type := mkAttribute {
  Attribute_XMLName : xml.Name;
  Attribute_Name : string;
  NameFormat : string;
  FriendlyName : string;
  Xmlns : string
}.

Record IdpSSODescriptor : Type := mkIdpSSODescriptor {
  IdpSSODescriptor_XMLName : xml.Name;
  ProtocolSupportEnumeration : string;
  SigningKeyDescriptor : KeyDescriptor;
  NameIDFormats : list NameIDFormat;
  SingleSignOnService_ : SingleSignOnService;
  Attribute_ : list Attribute
}.

Record IdpEntityDescriptor : Type := mkIdpEntityDescriptor {
  IdpEntityDescriptor_XMLName : xml.Name;
  DS : string;
  XMLNS : string;
  MD : string;
  EntityId : string;
  IdpSSODescriptor_ : IdpSSODescriptor
}.

(** ** What the file calls and does not define *)

Class Platform : Type := {
  (* encoding/base64, StdEncoding *)
  base64_DecodeString : string -> list byte * option error;
  base64_EncodeToString : list byte -> string;
  (* io.Copy(&buffer, flate.NewReader(bytes.NewReader(b))): the
     contents of the buffer, or the error of the copy *)
  flate_inflate : list byte -> result (list byte);
  (* compress/flate writer over a fresh bytes.Buffer: creating it at a
     level, writing p to it, and closing it after p was written, which
     leaves the compressed form of p in the buffer *)
  flate_NewWriter : Z -> option error;
  flate_Write : list byte -> option error;
  flate_Close : list byte -> list byte * option error;
  (* xml.Unmarshal into a zero saml.AuthnRequest *)
  xml_Unmarshal : list byte -> saml.AuthnRequest * option error;
  (* pem.Decode: a nil block when the input holds no PEM block *)
  pem_Decode : list byte -> option pem.Block;
  (* jwt.ParseRSAPrivateKeyFromPEM *)
  ParseRSAPrivateKeyFromPEM : list byte -> option rsa.PrivateKey * option error;
  (* time.Time.Format(time.RFC3339) of an instant in UTC *)
  Format_RFC3339 : Time -> string;
  (* dsig.SigningContext.ConstructSignature *)
  ConstructSignature : SigningContext -> etree.Element -> bool
                       -> option etree.Element * option error;
  (* etree.Document.WriteToBytes of a document with the given root *)
  WriteToBytes : etree.Element -> list byte * option error;
  (* package object, other files *)
  getCertByApplication : Application -> Cert;
  getOriginFromHost : string -> string * string;
  ExtendUserWithRolesAndPermissions : User -> User;
  getRolesString : User -> string;
  (* the order in which a range statement visits a map *)
  rangeOrder : json.Map -> json.Map
}.

(** Modelled from the spec: [Application.IsRedirectUriValid] is defined
    outside [object/saml_idp.go]. Section 4.2: the issuer URL must
    exactly match at least one entry in the redirect-URI set. *)
Definition IsRedirectUriValid (application : Application)
  (redirectUri : string) : bool :=
  existsb (String.eqb redirectUri) (Application.RedirectUris application).

(** ** Building a document: state and pointers *)

Record State : Type := mkState {
  doc : etree.Element;
  world : World
}.

Definition M (A : Type) : Type := State -> outcome (A * State).

Definition ret {A : Type} (a : A) : M A := fun st => Return (a, st).

Definition bind {A B : Type} (m : M A) (k : A -> M B) : M B :=
  fun st =>
    match m st with
    | Return (a, st') => k a st'
    | Panic v => Panic v
    end.

Definition panic {A : Type} (v : string) : M A := fun _ => Panic v.

Declare Scope go_scope.
Delimit Scope go_scope with go.
Notation "x <- m ;; k" := (bind m (fun x => k))
  (at level 100, m at next level, right associativity) : go_scope.
Notation "m ;; k" := (bind m (fun _ => k))
  (at level 100, right associativity) : go_scope.
Local Open Scope go_scope.

(** [for _, x := range l { body }] *)
Fixpoint forRange {A : Type} (l : list A) (body : A -> M unit) : M unit :=
  match l with
  | [] => ret tt
  | x :: l' => body x ;; forRange l' body
  end.

(** A method on a pointer that is not in the document dereferences
    nil. *)
Definition onElement (e : etree.ptr) (f : etree.Element -> etree.Element)
  : M unit :=
  fun st =>
    match etree.deref e (doc st) with
    | Some _ => Return (tt, mkState (etree.updateAt e f (doc st)) (world st))
    | None => Panic nilDereference
    end.

(** [e.CreateElement(tag)]: the new element is the last child of [e]. *)
Definition CreateElement (e : etree.ptr) (tag : string) : M etree.ptr :=
  fun st =>
    match etree.deref e (doc st) with
    | Some el =>
        let '(space, stag) := etree.spaceDecompose tag in
        Return ((e ++ [length (etree.Child el)])%list,
                mkState (etree.updateAt e
                           (etree.addChild
                              (etree.TokElement (etree.newElement space stag)))
                           (doc st))
                        (world st))
    | None => Panic nilDereference
    end.

(** [*etree.Attr]: the element that owns the attribute, and its name. *)
Record AttrPtr : Type := mkAttrPtr {
  element : etree.ptr;
  name : string * string
}.

(** [e.CreateAttr(key, value)] *)
Definition CreateAttr (e : etree.ptr) (key value : string) : M AttrPtr :=
  let '(space, skey) := etree.spaceDecompose key in
  onElement e (etree.createAttr space skey value) ;;
  ret (mkAttrPtr e (space, skey)).

(** [a.Element()] *)
Definition Attr_Element (a : AttrPtr) : etree.ptr := element a.

(** [e.SetText(text)] *)
Definition SetText (e : etree.ptr) (text : string) : M unit :=
  onElement e (etree.setText text).

(** [time.Now()] *)
Definition time_Now : M Time :=
  fun st =>
    let w := world st in
    Return (clock w (ticks w),
            mkState (doc st)
                    (mkWorld (clock w) (S (ticks w)) (entropy w) (draws w))).

(** [uuid.NewV4()], as the text [%s] prints. *)
Definition uuid_NewV4 : M string :=
  fun st =>
    let w := world st in
    Return (entropy w (draws w),
            mkState (doc st)
                    (mkWorld (clock w) (ticks w) (entropy w) (S (draws w)))).

(** Run a builder on a document that so far is the element [root], which
    the builder knows by the pointer [[]], and hand back the element a
    returned pointer points to. *)
Definition construct (root : etree.Element) (body : etree.ptr -> M etree.ptr)
  (w : World) : outcome (etree.Element * World) :=
  match body [] (mkState root w) with
  | Return (p, st) =>
      match etree.deref p (doc st) with
      | Some e => Return (e, world st)
      | None => Panic nilDereference
      end
  | Panic v => Panic v
  end.

Section Source.

Context {P : Platform}.

(** ** [NewSamlResponse] (lines 37-112) *)

Definition NewSamlResponse (user : User) (host certificate destination iss
  requestId : string) (redirectUri : list string) (w : World)
  : outcome (etree.Element * option error * World) :=
  match
    construct (etree.Elem "samlp" "Response" [] []) (fun samlResponse =>
      t <- time_Now ;;
      let now := Format_RFC3339 t in
      t <- time_Now ;;
      let expireTime := Format_RFC3339 (time.Add t (time.Hour * 24)%Z) in
      CreateAttr samlResponse "xmlns:samlp" "urn:oasis:names:tc:SAML:2.0:protocol" ;;
      CreateAttr samlResponse "xmlns:saml" "urn:oasis:names:tc:SAML:2.0:assertion" ;;
      arId <- uuid_NewV4 ;;

      CreateAttr samlResponse "ID" ("_" ++ arId) ;;
      CreateAttr samlResponse "Version" "2.0" ;;
      CreateAttr samlResponse "IssueInstant" now ;;
      CreateAttr samlResponse "Destination" destination ;;
      CreateAttr samlResponse "InResponseTo" requestId ;;
      issuer <- CreateElement samlResponse "saml:Issuer" ;;
      SetText issuer host ;;

      status <- CreateElement samlResponse "samlp:Status" ;;
      statusCode <- CreateElement status "samlp:StatusCode" ;;
      CreateAttr statusCode "Value" "urn:oasis:names:tc:SAML:2.0:status:Success" ;;

      assertion <- CreateElement samlResponse "saml:Assertion" ;;
      CreateAttr assertion "xmlns:xsi" "http://www.w3.org/2001/XMLSchema-instance" ;;
      CreateAttr assertion "xmlns:xs" "http://www.w3.org/2001/XMLSchema" ;;
      id <- uuid_NewV4 ;;
      CreateAttr assertion "ID" ("_" ++ id) ;;
      CreateAttr assertion "Version" "2.0" ;;
      CreateAttr assertion "IssueInstant" now ;;
      issuer <- CreateElement assertion "saml:Issuer" ;;
      SetText issuer host ;;
      subject <- CreateElement assertion "saml:Subject" ;;
      nameID <- CreateElement subject "saml:NameID" ;;
      SetText nameID (User.Name user) ;;
      subjectConfirmation <- CreateElement subject "saml:SubjectConfirmation" ;;
      CreateAttr subjectConfirmation "Method" "urn:oasis:names:tc:SAML:2.0:cm:bearer" ;;
      subjectConfirmationData <- CreateElement subjectConfirmation "saml:SubjectConfirmationData" ;;
      CreateAttr subjectConfirmationData "InResponseTo" requestId ;;
      CreateAttr subjectConfirmationData "Recipient" destination ;;
      CreateAttr subjectConfirmationData "NotOnOrAfter" expireTime ;;
      condition <- CreateElement assertion "saml:Conditions" ;;
      CreateAttr condition "NotBefore" now ;;
      CreateAttr condition "NotOnOrAfter" expireTime ;;
      audience <- CreateElement condition "saml:AudienceRestriction" ;;
      a <- CreateElement audience "saml:Audience" ;;
      SetText a iss ;;
      forRange redirectUri (fun value =>
        a <- CreateElement audience "saml:Audience" ;;
        SetText a value) ;;
      authnStatement <- CreateElement assertion "saml:AuthnStatement" ;;
      CreateAttr authnStatement "AuthnInstant" now ;;
      sessionIndex <- uuid_NewV4 ;;
      CreateAttr authnStatement "SessionIndex" ("_" ++ sessionIndex) ;;
      CreateAttr authnStatement "SessionNotOnOrAfter" expireTime ;;
      authnContext <- CreateElement authnStatement "saml:AuthnContext" ;;
      classRef <- CreateElement authnContext "saml:AuthnContextClassRef" ;;
      SetText classRef "urn:oasis:names:tc:SAML:2.0:ac:classes:PasswordProtectedTransport" ;;

      attributes <- CreateElement assertion "saml:AttributeStatement" ;;

      email <- CreateElement attributes "saml:Attribute" ;;
      CreateAttr email "Name" "Email" ;;
      CreateAttr email "NameFormat" "urn:oasis:names:tc:SAML:2.0:attrname-format:basic" ;;
      v <- CreateElement email "saml:AttributeValue" ;;
      a <- CreateAttr v "xsi:type" "xs:string" ;;
      SetText (Attr_Element a) (User.Email user) ;;

      name <- CreateElement attributes "saml:Attribute" ;;
      CreateAttr name "Name" "Name" ;;
      CreateAttr name "NameFormat" "urn:oasis:names:tc:SAML:2.0:attrname-format:basic" ;;
      v <- CreateElement name "saml:AttributeValue" ;;
      a <- CreateAttr v "xsi:type" "xs:string" ;;
      SetText (Attr_Element a) (User.Name user) ;;

      displayName <- CreateElement attributes "saml:Attribute" ;;
      CreateAttr displayName "Name" "DisplayName" ;;
      CreateAttr displayName "NameFormat" "urn:oasis:names:tc:SAML:2.0:attrname-format:basic" ;;
      v <- CreateElement displayName "saml:AttributeValue" ;;
      a <- CreateAttr v "xsi:type" "xs:string" ;;
      SetText (Attr_Element a) (User.DisplayName user) ;;

      roles <- CreateElement attributes "saml:Attribute" ;;
      CreateAttr roles "Name" "Roles" ;;
      CreateAttr roles "NameFormat" "urn:oasis:names:tc:SAML:2.0:attrname-format:basic" ;;
      let user := ExtendUserWithRolesAndPermissions user in
      v <- CreateElement roles "saml:AttributeValue" ;;
      a <- CreateAttr v "xsi:type" "xs:string" ;;
      SetText (Attr_Element a) (getRolesString user) ;;

      ret samlResponse) w
  with
  | Return (samlResponse, w') => Return (samlResponse, None, w')
  | Panic v => Panic v
  end.

(** ** [X509Key.GetKeyPair] (lines 119-123) *)

Definition X509Key_GetKeyPair (x : X509Key)
  : option rsa.PrivateKey * list byte * option error :=
  let '(cert, _) := base64_DecodeString (X509Certificate x) in
  let '(privateKey, err) :=
    ParseRSAPrivateKeyFromPEM (list_byte_of_string (PrivateKey x)) in
  (privateKey, cert, err).

(** An [*X509Key] used as a [dsig.X509KeyStore]. *)
Definition asKeyStore (x : X509Key) : X509KeyStore :=
  mkX509KeyStore (X509Key_GetKeyPair x).

(** ** [GetSamlMeta] (lines 186-231) *)

Definition GetSamlMeta (application : Application) (host : string)
  : outcome (IdpEntityDescriptor * option error) :=
  let cert := getCertByApplication application in
  match pem_Decode (list_byte_of_string (Cert.Certificate cert)) with
  | None => Panic nilDereference (* block.Bytes on a nil block *)
  | Some block =>
  let certificate := base64_EncodeToString (pem.Bytes block) in

  let '(originFrontend, originBackend) := getOriginFromHost host in

  let d := {|
    IdpEntityDescriptor_XMLName := xml.mkName "" "md:EntityDescriptor";
    DS := "http://www.w3.org/2000/09/xmldsig#";
    XMLNS := "urn:oasis:names:tc:SAML:2.0:metadata";
    MD := "urn:oasis:names:tc:SAML:2.0:metadata";
    EntityId := originBackend;
    IdpSSODescriptor_ := {|
      IdpSSODescriptor_XMLName := xml.noName;
      SigningKeyDescriptor := {|
        KeyDescriptor_XMLName := xml.noName;
        Use := "signing";
        KeyDescriptor_KeyInfo := {|
          KeyInfo_XMLName := xml.noName;
          KeyInfo_X509Data := {|
            X509Data_XMLName := xml.noName;
            X509Data_X509Certificate := {|
              X509Certificate_XMLName := xml.noName;
              Cert_ := certificate
            |}
          |}
        |}
      |};
      NameIDFormats := [
        mkNameIDFormat xml.noName "urn:oasis:names:tc:SAML:1.1:nameid-format:emailAddress";
        mkNameIDFormat xml.noName "urn:oasis:names:tc:SAML:2.0:nameid-format:persistent";
        mkNameIDFormat xml.noName "urn:oasis:names:tc:SAML:2.0:nameid-format:transient"
      ];
      Attribute_ := [
        {| Attribute_XMLName := xml.noName; Xmlns := "urn:oasis:names:tc:SAML:2.0:assertion"; Attribute_Name := "Email"; NameFormat := "urn:oasis:names:tc:SAML:2.0:attrname-format:basic"; FriendlyName := "E-Mail" |};
        {| Attribute_XMLName := xml.noName; Xmlns := "urn:oasis:names:tc:SAML:2.0:assertion"; Attribute_Name := "DisplayName"; NameFormat := "urn:oasis:names:tc:SAML:2.0:attrname-format:basic"; FriendlyName := "displayName" |};
        {| Attribute_XMLName := xml.noName; Xmlns := "urn:oasis:names:tc:SAML:2.0:assertion"; Attribute_Name := "Name"; NameFormat := "urn:oasis:names:tc:SAML:2.0:attrname-format:basic"; FriendlyName := "Name" |}
      ];
      SingleSignOnService_ := {|
        SingleSignOnService_XMLName := xml.noName;
        Binding := "urn:oasis:names:tc:SAML:2.0:bindings:HTTP-Redirect";
        Location := originFrontend ++ "/login/saml/authorize/"
                    ++ Application.Owner application ++ "/"
                    ++ Application.Name application
      |};
      ProtocolSupportEnumeration := "urn:oasis:names:tc:SAML:2.0:protocol"
    |}
  |} in

  Return (d, None)
  end.

(** ** [GetSamlResponse] (lines 233-319)

    A run ends at one of the function's [return] statements, named by
    its line, with the four returned values and the values the local
    variables [authnRequest] and [samlResponse] have there ([None]
    before their declarations), or it panics. *)

Inductive ReturnSite : Type :=
| L242 | L250 | L255 | L260 | L273 | L296 | L304 | L308 | L312 | L318.

Record Exit : Type := mkExit {
  site : ReturnSite;
  values : string * string * string * option error;
  authnRequest : option saml.AuthnRequest;
  samlResponse : option etree.Element
}.

(** [etree.Element.InsertChildAt(index, t)] for a [t] that is a nil
    [*Element] or an element without a parent: the method first asks
    [t] for its parent. *)
Definition InsertChildAt (e : etree.Element) (index : nat)
  (t : option etree.Element) : outcome etree.Element :=
  match t with
  | None => Panic nilDereference
  | Some t => Return (etree.insertChildAt index (etree.TokElement t) e)
  end.

Definition withAssertionConsumerServiceURL (r : saml.AuthnRequest)
  (url : string) : saml.AuthnRequest :=
  saml.mkAuthnRequest (saml.ID r) url (saml.Issuer_ r).

Definition DefaultCompression : Z := (-1)%Z.

Definition GetSamlResponse_run (application : Application) (user : User)
  (samlRequest host : string) (w : World) : outcome (Exit * World) :=
  (* request type *)
  let method := "GET" in

  (* base64 decode *)
  let '(defated, err) := base64_DecodeString samlRequest in
  match err with
  | Some err =>
      Return (mkExit L242 ("", "", method, Some ("err: Failed to decode SAML request , " ++ err)) None None, w)
  | None =>

  (* decompress *)
  match flate_inflate defated with
  | Err err =>
      Return (mkExit L250 ("", "", "", Some err) None None, w)
  | Ok buffer =>
  let '(authnRequest, err) := xml_Unmarshal buffer in
  match err with
  | Some err =>
      Return (mkExit L255 ("", "", method, Some ("err: Failed to unmarshal AuthnRequest, please check the SAML request. " ++ err)) (Some authnRequest) None, w)
  | None =>

  (* verify samlRequest *)
  if negb (IsRedirectUriValid application (saml.Url (saml.Issuer_ authnRequest))) then
      Return (mkExit L260 ("", "", method, Some ("err: Issuer URI: " ++ saml.Url (saml.Issuer_ authnRequest) ++ " doesn't exist in the allowed Redirect URI list")) (Some authnRequest) None, w)
  else

  (* get certificate string *)
  let cert := getCertByApplication application in
  match pem_Decode (list_byte_of_string (Cert.Certificate cert)) with
  | None => Panic nilDereference (* block.Bytes on a nil block *)
  | Some block =>
  let certificate := base64_EncodeToString (pem.Bytes block) in

  (* redirect Url (Assertion Consumer Url) *)
  match
    (if negb (Application.SamlReplyUrl application =? "") then
       inl ("POST", withAssertionConsumerServiceURL authnRequest (Application.SamlReplyUrl application))
     else if saml.AssertionConsumerServiceURL authnRequest =? "" then
       inr (mkExit L273 ("", "", "", Some "err: SAML request don't has attribute 'AssertionConsumerServiceURL' in <samlp:AuthnRequest>") (Some authnRequest) None)
     else
       inl (method, authnRequest))
  with
  | inr exit => Return (exit, w)
  | inl (method, authnRequest) =>

  let '(_, originBackend) := getOriginFromHost host in
  (* build signedResponse *)
  match NewSamlResponse user originBackend certificate (saml.AssertionConsumerServiceURL authnRequest) (saml.Url (saml.Issuer_ authnRequest)) (saml.ID authnRequest) (Application.RedirectUris application) w with
  | Panic v => Panic v
  | Return (samlResponse, _, w) =>
  let randomKeyStore := {|
    PrivateKey := Cert.PrivateKey cert;
    X509Certificate := certificate
  |} in
  let ctx := NewDefaultSigningContext (asKeyStore randomKeyStore) in
  let ctx := mkSigningContext (KeyStore ctx) SHA1 in
  let '(sig, err) := ConstructSignature ctx samlResponse true in
  match InsertChildAt samlResponse 1 sig with
  | Panic v => Panic v
  | Return samlResponse =>

  let '(xmlBytes, err) := WriteToBytes samlResponse in
  match err with
  | Some err =>
      Return (mkExit L296 ("", "", method, Some ("err: Failed to serializes the SAML request into bytes, " ++ err)) (Some authnRequest) (Some samlResponse), w)
  | None =>

  (* compress *)
  match
    (if Application.EnableSamlCompress application then
       match flate_NewWriter DefaultCompression with
       | Some err => inr (mkExit L304 ("", "", method, Some err) (Some authnRequest) (Some samlResponse))
       | None =>
       match flate_Write xmlBytes with
       | Some err => inr (mkExit L308 ("", "", "", Some err) (Some authnRequest) (Some samlResponse))
       | None =>
       let '(flated, err) := flate_Close xmlBytes in
       match err with
       | Some err => inr (mkExit L312 ("", "", "", Some err) (Some authnRequest) (Some samlResponse))
       | None => inl flated
       end end end
     else inl xmlBytes)
  with
  | inr exit => Return (exit, w)
  | inl xmlBytes =>
  (* base64 encode *)
  let res := base64_EncodeToString xmlBytes in
  Return (mkExit L318 (res, saml.AssertionConsumerServiceURL authnRequest, method, err) (Some authnRequest) (Some samlResponse), w)
  end end end end end end end end end.

Definition GetSamlResponse (application : Application) (user : User)
  (samlRequest host : string) (w : World)
  : outcome (string * string * string * option error * World) :=
  match GetSamlResponse_run application user samlRequest host w with
  | Return (x, w') => Return (values x, w')
  | Panic v => Panic v
  end.

(** ** [NewSamlResponse11] (lines 321-397) *)

Definition NewSamlResponse11 (user : User) (requestID host : string)
  (w : World) : outcome (etree.Element * World) :=
  construct (etree.Elem "samlp" "Response" [] []) (fun samlResponse =>
    (* create samlresponse *)
    CreateAttr samlResponse "xmlns:samlp" "urn:oasis:names:tc:SAML:1.0:protocol" ;;
    CreateAttr samlResponse "MajorVersion" "1" ;;
    CreateAttr samlResponse "MinorVersion" "1" ;;

    responseID <- uuid_NewV4 ;;
    CreateAttr samlResponse "ResponseID" ("_" ++ responseID) ;;
    CreateAttr samlResponse "InResponseTo" requestID ;;

    t <- time_Now ;;
    let now := Format_RFC3339 t in
    t <- time_Now ;;
    let expireTime := Format_RFC3339 (time.Add t (time.Hour * 24)%Z) in

    CreateAttr samlResponse "IssueInstant" now ;;

    status <- CreateElement samlResponse "samlp:Status" ;;
    statusCode <- CreateElement status "samlp:StatusCode" ;;
    CreateAttr statusCode "Value" "samlp:Success" ;;

    (* create assertion which is inside the response *)
    assertion <- CreateElement samlResponse "saml:Assertion" ;;
    CreateAttr assertion "xmlns:saml" "urn:oasis:names:tc:SAML:1.0:assertion" ;;
    CreateAttr assertion "MajorVersion" "1" ;;
    CreateAttr assertion "MinorVersion" "1" ;;
    assertionID <- uuid_NewV4 ;;
    CreateAttr assertion "AssertionID" assertionID ;;
    CreateAttr assertion "Issuer" host ;;
    CreateAttr assertion "IssueInstant" now ;;

    condition <- CreateElement assertion "saml:Conditions" ;;
    CreateAttr condition "NotBefore" now ;;
    CreateAttr condition "NotOnOrAfter" expireTime ;;

    (* AuthenticationStatement inside assertion *)
    authenticationStatement <- CreateElement assertion "saml:AuthenticationStatement" ;;
    CreateAttr authenticationStatement "AuthenticationMethod" "urn:oasis:names:tc:SAML:1.0:am:password" ;;
    CreateAttr authenticationStatement "AuthenticationInstant" now ;;

    (* subject inside AuthenticationStatement *)
    subject <- CreateElement assertion "saml:Subject" ;;
    (* nameIdentifier inside subject *)
    nameIdentifier <- CreateElement subject "saml:NameIdentifier" ;;
    SetText nameIdentifier (User.Name user) ;;

    (* subjectConfirmation inside subject *)
    subjectConfirmation <- CreateElement subject "saml:SubjectConfirmation" ;;
    confirmationMethod <- CreateElement subjectConfirmation "saml:ConfirmationMethod" ;;
    SetText confirmationMethod "urn:oasis:names:tc:SAML:1.0:cm:artifact" ;;

    attributeStatement <- CreateElement assertion "saml:AttributeStatement" ;;
    subjectInAttribute <- CreateElement attributeStatement "saml:Subject" ;;
    nameIdentifierInAttribute <- CreateElement subjectInAttribute "saml:NameIdentifier" ;;
    SetText nameIdentifierInAttribute (User.Name user) ;;

    subjectConfirmationInAttribute <- CreateElement subjectInAttribute "saml:SubjectConfirmation" ;;
    confirmationMethod <- CreateElement subjectConfirmationInAttribute "saml:ConfirmationMethod" ;;
    SetText confirmationMethod "urn:oasis:names:tc:SAML:1.0:cm:artifact" ;;

    let '(data, _) := json.Marshal user in
    let tmp : json.Map := [] in
    let '(tmp, err) := json.Unmarshal data tmp in
    match err with
    | Some err => panic err
    | None =>

    forRange (rangeOrder tmp) (fun '(k, v) =>
      if negb (v =? "") then
        attr <- CreateElement attributeStatement "saml:Attribute" ;;
        CreateAttr attr "saml:AttributeName" k ;;
        CreateAttr attr "saml:AttributeNamespace" "http://www.ja-sig.org/products/cas/" ;;
        value <- CreateElement attr "saml:AttributeValue" ;;
        SetText value v
      else ret tt) ;;

    ret samlResponse
    end) w.

End Source.

(** ** The failures of the specification's taxonomy

    The file returns plain [fmt.Errorf] errors; the specification names
    them. *)

Definition UnauthorizedIssuerError (issuer : string) : error :=
  "err: Issuer URI: " ++ issuer ++ " doesn't exist in the allowed Redirect URI list".

Definition MissingDestinationError : error :=
  "err: SAML request don't has attribute 'AssertionConsumerServiceURL' in <samlp:AuthnRequest>".

Section Stages.
Context {P : Platform}.

(** The request decoder (lines 239-256) yields [request]. *)
Definition decodes (samlRequest : string) (request : saml.AuthnRequest)
  : Prop :=
  exists defated buffer,
    base64_DecodeString samlRequest = (defated, None)
    /\ flate_inflate defated = Ok buffer
    /\ xml_Unmarshal buffer = (request, None).

(** The certificate of the application holds a PEM block (line 265). *)
Definition certified (application : Application) : Prop :=
  pem_Decode (list_byte_of_string
                (Cert.Certificate (getCertByApplication application)))
  <> None.

(** The signing context lines 279-284 set up. *)
Definition signingContext (application : Application) (block : pem.Block)
  : SigningContext :=
  let cert := getCertByApplication application in
  let certificate := base64_EncodeToString (pem.Bytes block) in
  let randomKeyStore := {|
    PrivateKey := Cert.PrivateKey cert;
    X509Certificate := certificate
  |} in
  let ctx := NewDefaultSigningContext (asKeyStore randomKeyStore) in
  mkSigningContext (KeyStore ctx) SHA1.

(** The signer yields a signature, the serializer and, where the
    application asks for it, the compressor do not fail (lines
    289-315). *)
Definition signsAndEncodes (application : Application) : Prop :=
  (forall block e,
     fst (ConstructSignature (signingContext application block) e true)
     <> None)
  /\ (forall e, snd (WriteToBytes e) = None)
  /\ (Application.EnableSamlCompress application = true ->
      flate_NewWriter DefaultCompression = None
      /\ (forall p, flate_Write p = None)
      /\ (forall p, snd (flate_Close p) = None)).

End Stages.

(** The method line 270 selects. *)
Definition selectedMethod (application : Application) : string :=
  if Application.SamlReplyUrl application =? "" then "GET" else "POST".

(** The method each [return] statement returns. *)
Definition methodAt (application : Application) (s : ReturnSite) : string :=
  match s with
  | L250 | L273 | L308 | L312 => ""
  | L242 | L255 | L260 => "GET"
  | L296 | L304 | L318 => selectedMethod application
  end.

(** The four values returned by a run that ended at a failure. *)
Definition failed (x : Exit) : Prop := snd (values x) <> None.

Definition methodOf (x : Exit) : string := snd (fst (values x)).

(** ** The documents the builders produce, written as terms *)

Module tree.
Import etree.

Definition attr (key value : string) : Attr :=
  mkAttr (fst (spaceDecompose key)) (snd (spaceDecompose key)) value.

Definition node (tag : string) (attrs : list Attr) (children : list Element)
  : Element :=
  Elem (fst (spaceDecompose tag)) (snd (spaceDecompose tag)) attrs
       (map TokElement children).

Definition leaf (tag : string) (attrs : list Attr) (text : string)
  : Element :=
  setText text (node tag attrs []).
End tree.
Import tree.

Definition basic : string := "urn:oasis:names:tc:SAML:2.0:attrname-format:basic".

Definition Response20 (user : User) (host destination iss requestId : string)
  (redirectUri : list string)
  (now expireTime arId assertionId sessionIndex rolesString : string)
  : etree.Element :=
  node "samlp:Response"
    [attr "xmlns:samlp" "urn:oasis:names:tc:SAML:2.0:protocol";
     attr "xmlns:saml" "urn:oasis:names:tc:SAML:2.0:assertion";
     attr "ID" ("_" ++ arId);
     attr "Version" "2.0";
     attr "IssueInstant" now;
     attr "Destination" destination;
     attr "InResponseTo" requestId]
    [leaf "saml:Issuer" [] host;
     node "samlp:Status" []
       [node "samlp:StatusCode"
          [attr "Value" "urn:oasis:names:tc:SAML:2.0:status:Success"] []];
     node "saml:Assertion"
       [attr "xmlns:xsi" "http://www.w3.org/2001/XMLSchema-instance";
        attr "xmlns:xs" "http://www.w3.org/2001/XMLSchema";
        attr "ID" ("_" ++ assertionId);
        attr "Version" "2.0";
        attr "IssueInstant" now]
       [leaf "saml:Issuer" [] host;
        node "saml:Subject" []
          [leaf "saml:NameID" [] (User.Name user);
           node "saml:SubjectConfirmation"
             [attr "Method" "urn:oasis:names:tc:SAML:2.0:cm:bearer"]
             [node "saml:SubjectConfirmationData"
                [attr "InResponseTo" requestId;
                 attr "Recipient" destination;
                 attr "NotOnOrAfter" expireTime] []]];
        node "saml:Conditions"
          [attr "NotBefore" now; attr "NotOnOrAfter" expireTime]
          [node "saml:AudienceRestriction" []
             (map (leaf "saml:Audience" []) (iss :: redirectUri))];
        node "saml:AuthnStatement"
          [attr "AuthnInstant" now;
           attr "SessionIndex" ("_" ++ sessionIndex);
           attr "SessionNotOnOrAfter" expireTime]
          [node "saml:AuthnContext" []
             [leaf "saml:AuthnContextClassRef" []
                "urn:oasis:names:tc:SAML:2.0:ac:classes:PasswordProtectedTransport"]];
        node "saml:AttributeStatement" []
          [node "saml:Attribute" [attr "Name" "Email"; attr "NameFormat" basic]
             [leaf "saml:AttributeValue" [attr "xsi:type" "xs:string"]
                (User.Email user)];
           node "saml:Attribute" [attr "Name" "Name"; attr "NameFormat" basic]
             [leaf "saml:AttributeValue" [attr "xsi:type" "xs:string"]
                (User.Name user)];
           node "saml:Attribute"
             [attr "Name" "DisplayName"; attr "NameFormat" basic]
             [leaf "saml:AttributeValue" [attr "xsi:type" "xs:string"]
                (User.DisplayName user)];
           node "saml:Attribute" [attr "Name" "Roles"; attr "NameFormat" basic]
             [leaf "saml:AttributeValue" [attr "xsi:type" "xs:string"]
                rolesString]]]].

Definition Attribute11 (kv : string * string) : etree.Element :=
  node "saml:Attribute"
    [attr "saml:AttributeName" (fst kv);
     attr "saml:AttributeNamespace" "http://www.ja-sig.org/products/cas/"]
    [leaf "saml:AttributeValue" [] (snd kv)].

Definition Subject11 (user : User) : etree.Element :=
  node "saml:Subject" []
    [leaf "saml:NameIdentifier" [] (User.Name user);
     node "saml:SubjectConfirmation" []
       [leaf "saml:ConfirmationMethod" []
          "urn:oasis:names:tc:SAML:1.0:cm:artifact"]].

Definition Response11 (user : User) (requestID host : string)
  (now expireTime responseID assertionID : string) (attributes : json.Map)
  : etree.Element :=
  node "samlp:Response"
    [attr "xmlns:samlp" "urn:oasis:names:tc:SAML:1.0:protocol";
     attr "MajorVersion" "1";
     attr "MinorVersion" "1";
     attr "ResponseID" ("_" ++ responseID);
     attr "InResponseTo" requestID;
     attr "IssueInstant" now]
    [node "samlp:Status" []
       [node "samlp:StatusCode" [attr "Value" "samlp:Success"] []];
     node "saml:Assertion"
       [attr "xmlns:saml" "urn:oasis:names:tc:SAML:1.0:assertion";
        attr "MajorVersion" "1";
        attr "MinorVersion" "1";
        attr "AssertionID" assertionID;
        attr "Issuer" host;
        attr "IssueInstant" now]
       [node "saml:Conditions"
          [attr "NotBefore" now; attr "NotOnOrAfter" expireTime] [];
        node "saml:AuthenticationStatement"
          [attr "AuthenticationMethod" "urn:oasis:names:tc:SAML:1.0:am:password";
           attr "AuthenticationInstant" now] [];
        Subject11 user;
        node "saml:AttributeStatement" []
          (Subject11 user
           :: map Attribute11
                (filter (fun kv => negb (snd kv =? "")) attributes))]].

(** ** A platform for concrete runs

    Codecs that keep the text as it is, a signer that needs a private
    key, [time.RFC3339] for four-digit years, and a decoder that yields
    a given request. *)

Module rfc3339.
Local Open Scope Z_scope.

(** The civil date of a day number counted from 1970-01-01. *)
Definition civil (days : Z) : Z * Z * Z :=
  let z := days + 719468 in
  let era := z / 146097 in
  let doe := z - era * 146097 in
  let yoe := (doe - doe / 1460 + doe / 36524 - doe / 146096) / 365 in
  let doy := doe - (365 * yoe + yoe / 4 - yoe / 100) in
  let mp := (5 * doy + 2) / 153 in
  let d := doy - (153 * mp + 2) / 5 + 1 in
  let m := if mp <? 10 then mp + 3 else mp - 9 in
  let y := yoe + era * 400 + (if m <=? 2 then 1 else 0) in
  (y, m, d).

Fixpoint digits (width : nat) (n : Z) : string :=
  match width with
  | O => EmptyString
  | S width' =>
      (digits width' (n / 10)
       ++ String (ascii_of_nat (48 + Z.to_nat (n mod 10))) EmptyString)%string
  end.

Definition Format (t : Time) : string :=
  let s := t / time.Second in
  let '(y, m, d) := civil (s / 86400) in
  let r := s mod 86400 in
  (digits 4 y ++ "-" ++ digits 2 m ++ "-" ++ digits 2 d ++ "T"
   ++ digits 2 (r / 3600) ++ ":" ++ digits 2 (r mod 3600 / 60) ++ ":"
   ++ digits 2 (r mod 60) ++ "Z")%string.
End rfc3339.

Module Stub.

Definition Signature : etree.Element := node "ds:Signature" [] [].

Definition sameSite (a b : ReturnSite) : bool :=
  match a, b with
  | L242, L242 | L250, L250 | L255, L255 | L260, L260 | L273, L273
  | L296, L296 | L304, L304 | L308, L308 | L312, L312 | L318, L318 => true
  | _, _ => false
  end.

(** [fault]: the [return] statement the platform steers a run to, by
    failing the call that precedes it. *)
Definition fails (fault : option ReturnSite) (s : ReturnSite) : bool :=
  match fault with
  | Some f => sameSite f s
  | None => false
  end.

Definition platform (request : saml.AuthnRequest) (cert : Cert)
  (fault : option ReturnSite) : Platform := {|
  base64_DecodeString := fun s =>
    if fails fault L242 then ([], Some "illegal base64 data at input byte 0")
    else (list_byte_of_string s, None);
  base64_EncodeToString := string_of_list_byte;
  flate_inflate := fun b =>
    if fails fault L250 then Err "unexpected EOF" else Ok b;
  flate_NewWriter := fun _ =>
    if fails fault L304 then Some "flate: invalid compression level" else None;
  flate_Write := fun _ =>
    if fails fault L308 then Some "short write" else None;
  flate_Close := fun p =>
    if fails fault L312 then ([], Some "short write") else (p, None);
  xml_Unmarshal := fun _ =>
    if fails fault L255 then (saml.mkAuthnRequest "" "" (saml.mkIssuer ""), Some "EOF")
    else (request, None);
  pem_Decode := fun b => match b with
                         | [] => None
                         | _ => Some (pem.mkBlock b)
                         end;
  ParseRSAPrivateKeyFromPEM := fun b =>
    match b with
    | [] => (None, Some "Invalid Key: Key must be a PEM encoded PKCS1 or PKCS8 key")
    | _ => (Some (rsa.mkPrivateKey b), None)
    end;
  Format_RFC3339 := rfc3339.Format;
  ConstructSignature := fun ctx _ _ =>
    match GetKeyPair (KeyStore ctx) with
    | (_, _, Some err) => (None, Some err)
    | _ => (Some Signature, None)
    end;
  WriteToBytes := fun e =>
    if fails fault L296 then ([], Some "short write")
    else (list_byte_of_string (etree.Tag e), None);
  getCertByApplication := fun _ => cert;
  getOriginFromHost := fun host => ("https://" ++ host, "https://" ++ host);
  ExtendUserWithRolesAndPermissions := fun user => user;
  getRolesString := fun user => String.concat ", " (User.Roles user);
  rangeOrder := fun m => m
|}.

Definition alice : User := User.mk "alice" "alice@example.com" "Alice" [].
Definition admin : User := User.mk "root" "root@example.com" "Root" ["admin"].

Definition goodCert : Cert := Cert.mk "CERTIFICATE" "PRIVATE KEY".
Definition keylessCert : Cert := Cert.mk "CERTIFICATE" "".

Definition request : saml.AuthnRequest :=
  saml.mkAuthnRequest "req-1" "https://sp.example/acs"
                      (saml.mkIssuer "https://sp.example").

Definition requestWithoutACS : saml.AuthnRequest :=
  saml.mkAuthnRequest "req-2" "" (saml.mkIssuer "https://sp.example").

Definition strangerRequest : saml.AuthnRequest :=
  saml.mkAuthnRequest "req-3" "https://evil.example/acs"
                      (saml.mkIssuer "https://evil.example").

Definition app : Application :=
  Application.mk "built-in" "app" ["https://sp.example"] "" false.

Definition appCompressing : Application :=
  Application.mk "built-in" "app" ["https://sp.example"] "" true.

Definition appWithReplyUrl : Application :=
  Application.mk "built-in" "app" ["https://sp.example"]
                 "https://sp.example/reply" false.

(** The instant 2026-11-01T00:00:00Z, and a world whose clock stands
    at it. *)
Definition instant : Time := (1793491200 * time.Second)%Z.

Definition world : World :=
  mkWorld (fun _ => instant) 0
          (fun n => match n with
                    | O => "6ba7b810-9dad-11d1-80b4-00c04fd430c8"
                    | 1 => "6ba7b811-9dad-11d1-80b4-00c04fd430c8"
                    | _ => "6ba7b812-9dad-11d1-80b4-00c04fd430c8"
                    end)
          0.

End Stub.

(** * Properties *)

(** ** Pointers and updates *)

Module etree_facts.
Import etree.
Local Open Scope list_scope.

Lemma updChild_ext f g i c :
  (forall e, f e = g e) -> updChild i f c = updChild i g c.
Proof.
  intros H. revert i. induction c as [|t c IH]; intros [|i]; simpl; trivial.
  - destruct t; [rewrite H|]; reflexivity.
  - f_equal. apply IH.
Qed.

Lemma updateAt_ext p : forall f g e,
  (forall x, f x = g x) -> updateAt p f e = updateAt p g e.
Proof.
  induction p as [|i p IH]; intros f g [s t a c] H; simpl.
  - apply H.
  - f_equal. apply updChild_ext. intros x. apply IH, H.
Qed.

Lemma updChild_updChild f g i c :
  updChild i f (updChild i g c) = updChild i (fun e => f (g e)) c.
Proof.
  revert i. induction c as [|t c IH]; intros [|i]; simpl; trivial.
  - destruct t; reflexivity.
  - f_equal. apply IH.
Qed.

Lemma updateAt_updateAt p : forall f g e,
  updateAt p f (updateAt p g e) = updateAt p (fun x => f (g x)) e.
Proof.
  induction p as [|i p IH]; intros f g [s t a c]; simpl; trivial.
  f_equal. rewrite updChild_updChild. apply updChild_ext. intros x. apply IH.
Qed.

Lemma updChild_id f i c : (forall e, f e = e) -> updChild i f c = c.
Proof.
  intros H. revert i. induction c as [|t c IH]; intros [|i]; simpl; trivial.
  - destruct t; [rewrite H|]; reflexivity.
  - f_equal. apply IH.
Qed.

Lemma updateAt_id p : forall f e, (forall x, f x = x) -> updateAt p f e = e.
Proof.
  induction p as [|i p IH]; intros f [s t a c] H; simpl.
  - apply H.
  - f_equal. apply updChild_id. intros x. apply IH, H.
Qed.

Lemma nth_error_updChild f i c :
  nth_error (updChild i f c) i =
  match nth_error c i with
  | Some (TokElement e) => Some (TokElement (f e))
  | o => o
  end.
Proof.
  revert i. induction c as [|t c IH]; intros [|i]; simpl; trivial.
  destruct t; reflexivity.
Qed.

Lemma deref_updateAt p : forall f e x,
  deref p e = Some x -> deref p (updateAt p f e) = Some (f x).
Proof.
  induction p as [|i p IH]; intros f [s t a c] x; simpl.
  - intros [= <-]. reflexivity.
  - rewrite nth_error_updChild. destruct (nth_error c i) as [[y|]|]; try discriminate.
    apply IH.
Qed.

(** Below a child that was just added. *)
Lemma deref_app p : forall q e x,
  deref p e = Some x -> deref (p ++ q) e = deref q x.
Proof.
  induction p as [|i p IH]; intros q e x; simpl.
  - intros [= <-]. reflexivity.
  - destruct (nth_error (Child e) i) as [[y|]|]; try discriminate. apply IH.
Qed.

Lemma updChild_last f c t :
  updChild (length c) f (c ++ [TokElement t]) = c ++ [TokElement (f t)].
Proof. induction c as [|x c IH]; simpl; [reflexivity|]. f_equal. apply IH. Qed.

Lemma nth_error_last (c : list Token) t : nth_error (c ++ [t]) (length c) = Some t.
Proof. induction c; simpl; auto. Qed.

Lemma deref_addChild q x t :
  deref (length (Child x) :: q) (addChild (TokElement t) x) = deref q t.
Proof. destruct x as [s g a c]. simpl. rewrite nth_error_last. reflexivity. Qed.

Lemma deref_new p q e x t :
  deref p e = Some x ->
  deref (p ++ length (Child x) :: q) (updateAt p (addChild (TokElement t)) e)
  = deref q t.
Proof.
  intros H. erewrite deref_app by (apply deref_updateAt, H). apply deref_addChild.
Qed.

Lemma updateAt_new p q f e x t :
  deref p e = Some x ->
  updateAt (p ++ length (Child x) :: q) f (updateAt p (addChild (TokElement t)) e)
  = updateAt p (addChild (TokElement (updateAt q f t))) e.
Proof.
  revert e x. induction p as [|i p IH]; intros [s g a c] x; simpl.
  - intros [= <-]. f_equal. apply updChild_last.
  - intros H. f_equal. rewrite updChild_updChild.
    revert i H. induction c as [|y c IHc]; intros [|i]; simpl; trivial.
    + destruct y as [y|]; [|discriminate]. intros H. rewrite (IH _ _ H). reflexivity.
    + intros H. f_equal. apply IHc, H.
Qed.

Lemma deref_appendChildren p ts e x :
  deref p e = Some x -> deref p (updateAt p (appendChildren ts) e) = Some (appendChildren ts x).
Proof. apply deref_updateAt. Qed.

Lemma appendChildren_nil x : appendChildren [] x = x.
Proof. destruct x; simpl. rewrite app_nil_r. reflexivity. Qed.

Lemma appendChildren_app ts us x :
  appendChildren us (appendChildren ts x) = appendChildren (ts ++ us) x.
Proof. destruct x; simpl. rewrite <- app_assoc. reflexivity. Qed.

End etree_facts.
Import etree_facts.

Section Run.
Import etree.
Local Open Scope list_scope.

Lemma bind_Return A B (m : M A) (k : A -> M B) st a st' :
  m st = Return (a, st') -> bind m k st = k a st'.
Proof. unfold bind. intros ->. reflexivity. Qed.

Lemma CreateElement_at p tag d w x :
  deref p d = Some x ->
  CreateElement p tag (mkState d w)
  = Return (p ++ [length (Child x)],
            mkState (updateAt p (addChild (TokElement
                       (newElement (fst (spaceDecompose tag))
                                   (snd (spaceDecompose tag))))) d) w).
Proof.
  unfold CreateElement. simpl. intros ->. destruct (spaceDecompose tag). reflexivity.
Qed.

(** Methods on pointers below a child [t] that was just added act on
    [t]. *)
Lemma onElement_new p q f d w x t :
  deref p d = Some x ->
  onElement (p ++ length (Child x) :: q) f
            (mkState (updateAt p (addChild (TokElement t)) d) w)
  = match deref q t with
    | Some _ => Return (tt, mkState (updateAt p (addChild (TokElement (updateAt q f t))) d) w)
    | None => Panic nilDereference
    end.
Proof.
  intros H. unfold onElement. simpl. erewrite deref_new by eassumption.
  destruct (deref q t); [|reflexivity]. erewrite updateAt_new by eassumption. reflexivity.
Qed.

Lemma CreateElement_new p q tag d w x t :
  deref p d = Some x ->
  CreateElement (p ++ length (Child x) :: q) tag
            (mkState (updateAt p (addChild (TokElement t)) d) w)
  = match deref q t with
    | Some y =>
        Return (p ++ length (Child x) :: q ++ [length (Child y)],
                mkState (updateAt p (addChild (TokElement
                   (updateAt q (addChild (TokElement
                       (newElement (fst (spaceDecompose tag))
                                   (snd (spaceDecompose tag))))) t))) d) w)
    | None => Panic nilDereference
    end.
Proof.
  intros H. unfold CreateElement. simpl. erewrite deref_new by eassumption.
  destruct (deref q t); [|reflexivity]. destruct (spaceDecompose tag). simpl.
  erewrite updateAt_new by eassumption. rewrite <- app_assoc. reflexivity.
Qed.

Lemma CreateAttr_new p q key value d w x t :
  deref p d = Some x ->
  CreateAttr (p ++ length (Child x) :: q) key value
            (mkState (updateAt p (addChild (TokElement t)) d) w)
  = match deref q t with
    | Some _ =>
        Return (mkAttrPtr (p ++ length (Child x) :: q) (spaceDecompose key),
                mkState (updateAt p (addChild (TokElement
                   (updateAt q (createAttr (fst (spaceDecompose key))
                                           (snd (spaceDecompose key)) value) t))) d) w)
    | None => Panic nilDereference
    end.
Proof.
  intros H. unfold CreateAttr. destruct (spaceDecompose key) as [space skey].
  unfold bind. erewrite onElement_new by eassumption.
  destruct (deref q t); reflexivity.
Qed.

(** A loop whose every round adds children to one element adds them
    all. *)
Lemma forRange_appendChildren A (body : A -> M unit) p (g : A -> list Token) :
  (forall a d w x, deref p d = Some x ->
     body a (mkState d w) = Return (tt, mkState (updateAt p (appendChildren (g a)) d) w)) ->
  forall l d w x, deref p d = Some x ->
    forRange l body (mkState d w)
    = Return (tt, mkState (updateAt p (appendChildren (flat_map g l)) d) w).
Proof.
  intros Hbody. induction l as [|a l IH]; intros d w x H; simpl.
  - unfold ret. rewrite updateAt_id; [reflexivity|]. apply appendChildren_nil.
  - erewrite bind_Return by (eapply Hbody, H).
    erewrite IH by (eapply deref_appendChildren, H).
    rewrite updateAt_updateAt. do 3 f_equal.
    apply updateAt_ext. intros y. apply appendChildren_app.
Qed.

End Run.

(** ** The documents the builders return *)

Section Shape.
Context {P : Platform}.
Import etree.

Lemma flat_map_single A B (f : A -> B) l : flat_map (fun x => [f x]) l = map f l.
Proof. induction l; simpl; congruence. Qed.

Lemma audience_round p value d w x :
  deref p d = Some x ->
  (a <- CreateElement p "saml:Audience" ;; SetText a value) (mkState d w)
  = Return (tt, mkState (updateAt p (appendChildren [TokElement (leaf "saml:Audience" [] value)]) d) w).
Proof.
  intros H. erewrite bind_Return by (eapply CreateElement_at, H).
  unfold SetText.
  erewrite onElement_new with (q := []) by eassumption. simpl.
  reflexivity.
Qed.

Lemma construct_Return root body w p st e :
  body [] (mkState root w) = Return (p, st) ->
  deref p (doc st) = Some e ->
  construct root body w = Return (e, world st).
Proof. unfold construct. intros -> ->. reflexivity. Qed.

Ltac step :=
  lazymatch goal with
  | |- bind ?m ?k ?st = _ =>
      let r := eval lazy -[Format_RFC3339 ExtendUserWithRolesAndPermissions getRolesString map flat_map charData time.Add Z.mul] in (m st) in
      lazymatch r with
      | Return (?a, ?st') =>
          rewrite (@bind_Return _ _ m k st a st' eq_refl); cbv beta iota zeta
      end
  end.

Lemma NewSamlResponse_builds user host certificate destination iss requestId redirectUri w :
  NewSamlResponse user host certificate destination iss requestId redirectUri w
  = Return (Response20 user host destination iss requestId redirectUri
              (Format_RFC3339 (clock w (ticks w)))
              (Format_RFC3339 (time.Add (clock w (S (ticks w))) (time.Hour * 24)%Z))
              (entropy w (draws w)) (entropy w (S (draws w))) (entropy w (S (S (draws w))))
              (getRolesString (ExtendUserWithRolesAndPermissions user)),
            None,
            mkWorld (clock w) (S (S (ticks w))) (entropy w) (S (S (S (draws w))))).
Proof.
  destruct w as [clk tk ent dr]. unfold NewSamlResponse. simpl clock; simpl ticks; simpl entropy; simpl draws.
  erewrite construct_Return.
  2:{ repeat step.
      erewrite bind_Return by
        (eapply forRange_appendChildren with (p := [2; 2; 0]);
         [intros; eapply audience_round; eassumption | reflexivity]).
      rewrite flat_map_single. cbv beta.
      repeat step. reflexivity. }
  2: reflexivity.
  unfold Response20, node. rewrite map_map. reflexivity.
Qed.

Lemma construct_Panic root body w v :
  body [] (mkState root w) = Panic v -> construct root body w = Panic v.
Proof. unfold construct. intros ->. reflexivity. Qed.

Lemma attribute_round p (kv : string * string) d w x :
  deref p d = Some x ->
  (let '(k, v) := kv in
   if negb (v =? "") then
     attr <- CreateElement p "saml:Attribute" ;;
     CreateAttr attr "saml:AttributeName" k ;;
     CreateAttr attr "saml:AttributeNamespace" "http://www.ja-sig.org/products/cas/" ;;
     value <- CreateElement attr "saml:AttributeValue" ;;
     SetText value v
   else ret tt) (mkState d w)
  = Return (tt, mkState (updateAt p (appendChildren
       (if negb (snd kv =? "") then [TokElement (Attribute11 kv)] else [])) d) w).
Proof.
  intros H. destruct kv as [k v]. simpl snd. destruct (negb (v =? "")).
  - erewrite bind_Return by (eapply CreateElement_at, H).
    erewrite bind_Return by (erewrite CreateAttr_new with (q := []) by eassumption; reflexivity).
    erewrite bind_Return by (erewrite CreateAttr_new with (q := []) by eassumption; reflexivity).
    erewrite bind_Return by (erewrite CreateElement_new with (q := []) by eassumption; reflexivity).
    unfold SetText. erewrite onElement_new with (q := [0]) by eassumption.
    reflexivity.
  - unfold ret. rewrite updateAt_id; [reflexivity|]. apply appendChildren_nil.
Qed.

Lemma flat_map_filter A B (f : A -> B) (c : A -> bool) l :
  flat_map (fun x => if c x then [f x] else []) l = map f (filter c l).
Proof.
  induction l as [|a l IH]; simpl; [reflexivity|].
  destruct (c a); simpl; congruence.
Qed.

Lemma NewSamlResponse11_builds user requestID host w :
  NewSamlResponse11 user requestID host w
  = match json.Unmarshal (fst (json.Marshal user)) [] with
    | (tmp, None) =>
        Return (Response11 user requestID host
                  (Format_RFC3339 (clock w (ticks w)))
                  (Format_RFC3339 (time.Add (clock w (S (ticks w))) (time.Hour * 24)%Z))
                  (entropy w (draws w)) (entropy w (S (draws w)))
                  (rangeOrder tmp),
                mkWorld (clock w) (S (S (ticks w))) (entropy w) (S (S (draws w))))
    | (_, Some err) => Panic err
    end.
Proof.
  destruct w as [clk tk ent dr]. unfold NewSamlResponse11. cbv zeta.
  simpl clock; simpl ticks; simpl entropy; simpl draws.
  destruct (json.Marshal user) as [data e]. simpl fst.
  destruct (json.Unmarshal data []) as [tmp [err|]].
  - apply construct_Panic. repeat step. reflexivity.
  - erewrite construct_Return.
    2:{ repeat step.
        erewrite bind_Return by
          (eapply forRange_appendChildren with (p := [1; 3]);
           [intros; eapply attribute_round; eassumption | reflexivity]).
        rewrite flat_map_filter. reflexivity. }
    2: reflexivity.
    unfold Response11, node. cbn [map]. rewrite map_map. reflexivity.
Qed.
End Shape.

(** ** Runs of [GetSamlResponse] *)

Lemma IsRedirectUriValid_In application uri :
  IsRedirectUriValid application uri = true
  <-> In uri (Application.RedirectUris application).
Proof.
  unfold IsRedirectUriValid. rewrite existsb_exists. split.
  - intros [x [Hin Heq]]. apply String.eqb_eq in Heq. subst. exact Hin.
  - intros Hin. exists uri. split; [exact Hin|apply String.eqb_refl].
Qed.

Section Pipeline.
Context {P : Platform}.

(** The innermost term a stuck [match] waits for. *)
Ltac scrutinee e :=
  lazymatch e with
  | match ?e' with _ => _ end => scrutinee e'
  | negb ?b => scrutinee b
  | _ => e
  end.

Ltac run_case H :=
  lazymatch type of H with
  | match ?e with _ => _ end = _ =>
      let e' := scrutinee e in
      lazymatch e' with
      | NewSamlResponse _ _ _ _ _ _ _ _ => rewrite NewSamlResponse_builds in H
      | _ => let E := fresh "E" in destruct e' eqn:E
      end;
      cbv beta iota zeta delta [negb InsertChildAt] in H
  end.

Ltac run_cases H :=
  unfold GetSamlResponse_run in H; cbv zeta in H; repeat run_case H.

Lemma Attrs_insertChildAt i t e :
  etree.Attrs (etree.insertChildAt i t e) = etree.Attrs e.
Proof. destruct e; reflexivity. Qed.

Lemma SelectAttr_insertChildAt i t e key :
  etree.SelectAttr (etree.insertChildAt i t e) key = etree.SelectAttr e key.
Proof. unfold etree.SelectAttr. rewrite Attrs_insertChildAt. reflexivity. Qed.

(** The method each run returns, by the statement it ends at. *)
Lemma GetSamlResponse_run_methods application user samlRequest host w x w' :
  GetSamlResponse_run application user samlRequest host w = Return (x, w') ->
  methodOf x = methodAt application (site x) /\ (failed x <-> site x <> L318).
Proof.
  intros H. run_cases H; try discriminate H; injection H as <- <-.
  all: unfold methodOf, methodAt, selectedMethod, failed; simpl.
  all: try match goal with
           | E : (Application.SamlReplyUrl _ =? "") = _ |- _ => rewrite E
           end.
  all: split; [reflexivity|]; split; intros; congruence.
Qed.

Ltac decoded H :=
  let defated := fresh "defated" in
  let buffer := fresh "buffer" in
  let H1 := fresh "Hbase64" in
  let H2 := fresh "Hinflate" in
  let H3 := fresh "Hxml" in
  destruct H as (defated & buffer & H1 & H2 & H3).

(** Run the decoder and the issuer check. *)
Lemma GetSamlResponse_run_rejects application user samlRequest host w request :
  decodes samlRequest request ->
  IsRedirectUriValid application (saml.Url (saml.Issuer_ request)) = false ->
  GetSamlResponse_run application user samlRequest host w
  = Return (mkExit L260
              ("", "", "GET",
               Some (UnauthorizedIssuerError (saml.Url (saml.Issuer_ request))))
              (Some request) None, w).
Proof.
  intros Hd Hv. decoded Hd. unfold GetSamlResponse_run.
  rewrite Hbase64, Hinflate, Hxml, Hv. reflexivity.
Qed.

(** C1. When the issuer URL of the decoded request is not among the
    application's redirect URIs, [GetSamlResponse] fails with the
    unauthorized-issuer error: the run ends at line 260, before any
    document is built and with the world untouched. When the issuer is
    among them the run goes on: it ends at a later [return] statement,
    or panics in a later stage. *)
Theorem GetSamlResponse_issuer_gate application user samlRequest host w request :
  decodes samlRequest request ->
  let issuer := saml.Url (saml.Issuer_ request) in
  (~ In issuer (Application.RedirectUris application) ->
   GetSamlResponse_run application user samlRequest host w
   = Return (mkExit L260 ("", "", "GET", Some (UnauthorizedIssuerError issuer))
                    (Some request) None, w)
   /\ GetSamlResponse application user samlRequest host w
      = Return ("", "", "GET", Some (UnauthorizedIssuerError issuer), w))
  /\ (In issuer (Application.RedirectUris application) ->
      match GetSamlResponse_run application user samlRequest host w with
      | Return (x, _) => In (site x) [L273; L296; L304; L308; L312; L318]
      | Panic v => v = nilDereference
      end).
Proof.
  intros Hd issuer. split.
  - intros Hout.
    assert (Hv : IsRedirectUriValid application issuer = false).
    { destruct (IsRedirectUriValid application issuer) eqn:E; [|reflexivity].
      apply IsRedirectUriValid_In in E. contradiction. }
    unfold GetSamlResponse.
    rewrite (GetSamlResponse_run_rejects application user host w Hd Hv).
    split; reflexivity.
  - intros Hin. apply IsRedirectUriValid_In in Hin. decoded Hd.
    unfold issuer in *. clear issuer.
    destruct (GetSamlResponse_run application user samlRequest host w)
      as [[x w']|v] eqn:H.
    + run_cases H; try discriminate H; try congruence.
      all: injection H as <- <-; simpl; tauto.
    + run_cases H; try discriminate H; try congruence.
Qed.

(** What a run that reaches the last [return] statement returns. *)
Lemma GetSamlResponse_run_L318 application user samlRequest host w request x w' :
  decodes samlRequest request ->
  GetSamlResponse_run application user samlRequest host w = Return (x, w') ->
  site x = L318 ->
  exists res,
    values x
    = (res,
       (if Application.SamlReplyUrl application =? ""
        then saml.AssertionConsumerServiceURL request
        else Application.SamlReplyUrl application),
       selectedMethod application, None)
    /\ (Application.SamlReplyUrl application = "" ->
        saml.AssertionConsumerServiceURL request <> "").
Proof.
  intros Hd H. decoded Hd. unfold selectedMethod.
  run_cases H; try discriminate H; try congruence.
  all: injection H as <- <-; simpl; try discriminate; intros _.
  all: repeat match goal with
         | E : (_ =? _) = true |- _ => apply String.eqb_eq in E
         | E : (_ =? _) = false |- _ => apply String.eqb_neq in E
         end.
  all: assert (request = a0) by congruence; subst a0.
  all: try (rewrite (proj2 (String.eqb_neq _ _))
              by assumption).
  all: try match goal with E : Application.SamlReplyUrl _ = "" |- _ => rewrite E end.
  all: simpl; eexists; split; [reflexivity|]; intros; congruence.
Qed.

(** Past the checks, a platform that signs and encodes takes the run
    to the last [return] statement. *)
Lemma GetSamlResponse_run_completes application user samlRequest host w request :
  decodes samlRequest request ->
  IsRedirectUriValid application (saml.Url (saml.Issuer_ request)) = true ->
  certified application ->
  Application.SamlReplyUrl application <> ""
  \/ saml.AssertionConsumerServiceURL request <> "" ->
  signsAndEncodes application ->
  exists x w',
    GetSamlResponse_run application user samlRequest host w = Return (x, w')
    /\ site x = L318.
Proof.
  intros Hd Hv Hc Hdest (Hsign & Hwrite & Hflate). decoded Hd. unfold certified in Hc.
  destruct (GetSamlResponse_run application user samlRequest host w)
    as [[x w']|v] eqn:H.
  - exists x, w'. split; [reflexivity|].
    run_cases H; try discriminate H; try congruence.
    all: injection H as <- <-; simpl; try reflexivity; exfalso.
    all: repeat match goal with
         | E : (_ =? _) = true |- _ => apply String.eqb_eq in E
         | E : (_ =? _) = false |- _ => apply String.eqb_neq in E
         end.
    all: try (assert (request = a0) by congruence; subst a0; tauto).
    all: try match goal with
         | E : WriteToBytes ?e = (_, Some _) |- _ =>
             specialize (Hwrite e); rewrite E in Hwrite; discriminate
         end.
    all: destruct (Hflate eq_refl) as (Hnew & Hw & Hclose).
    all: try congruence.
    all: try match goal with
         | E : flate_Write ?p = Some _ |- _ =>
             specialize (Hw p); congruence
         | E : flate_Close ?p = (_, Some _) |- _ =>
             specialize (Hclose p); rewrite E in Hclose; discriminate
         end.
  - exfalso. run_cases H; try discriminate H; try congruence.
    all: match goal with
         | E : ConstructSignature _ ?e true = (None, _),
           B : pem_Decode _ = Some ?b |- _ =>
             apply (Hsign b e); exact (f_equal fst E)
         end.
Qed.

(** C4. Past the decoder, the issuer check and the certificate: with a
    reply URL set, a successful call returns the method POST and the
    reply URL as destination, whatever consumer-service URL the request
    carries; with no reply URL and a consumer-service URL in the
    request, it returns GET and that URL; a platform that signs and
    encodes makes the call succeed. With neither, the call fails with
    the missing-destination error at line 273, before any document is
    built. *)
Theorem GetSamlResponse_method_and_destination application user samlRequest host w request :
  decodes samlRequest request ->
  IsRedirectUriValid application (saml.Url (saml.Issuer_ request)) = true ->
  certified application ->
  let replyUrl := Application.SamlReplyUrl application in
  let acs := saml.AssertionConsumerServiceURL request in
  (replyUrl <> "" ->
   (forall res destination method w',
      GetSamlResponse application user samlRequest host w
      = Return (res, destination, method, None, w') ->
      method = "POST" /\ destination = replyUrl)
   /\ (signsAndEncodes application ->
       exists res w',
         GetSamlResponse application user samlRequest host w
         = Return (res, replyUrl, "POST", None, w')))
  /\ (replyUrl = "" -> acs <> "" ->
      (forall res destination method w',
         GetSamlResponse application user samlRequest host w
         = Return (res, destination, method, None, w') ->
         method = "GET" /\ destination = acs)
      /\ (signsAndEncodes application ->
          exists res w',
            GetSamlResponse application user samlRequest host w
            = Return (res, acs, "GET", None, w')))
  /\ (replyUrl = "" -> acs = "" ->
      GetSamlResponse_run application user samlRequest host w
      = Return (mkExit L273 ("", "", "", Some MissingDestinationError)
                       (Some request) None, w)
      /\ GetSamlResponse application user samlRequest host w
         = Return ("", "", "", Some MissingDestinationError, w)).
Proof.
  intros Hd Hv Hc replyUrl acs. unfold GetSamlResponse.
  assert (Hback : forall res destination method w',
    match GetSamlResponse_run application user samlRequest host w with
    | Return (x, w') => Return (values x, w')
    | Panic v => Panic v
    end = Return (res, destination, method, None, w') ->
    method = selectedMethod application
    /\ destination = (if replyUrl =? "" then acs else replyUrl)).
  { intros res destination method w' H.
    destruct (GetSamlResponse_run application user samlRequest host w)
      as [[x w'']|v] eqn:Hrun; [|discriminate].
    injection H as Hvalues <-.
    destruct (GetSamlResponse_run_methods _ _ _ _ _ Hrun) as [_ Hfailed].
    assert (Hsite : site x = L318).
    { destruct (site x) eqn:Es; try reflexivity; exfalso.
      all: assert (Hf : failed x) by (apply Hfailed; discriminate).
      all: apply Hf; rewrite Hvalues; reflexivity. }
    destruct (GetSamlResponse_run_L318 _ _ _ _ Hd Hrun Hsite) as (res' & Hx & _).
    rewrite Hx in Hvalues. injection Hvalues as _ <- <-. split; reflexivity. }
  assert (Hforth : replyUrl <> "" \/ acs <> "" -> signsAndEncodes application ->
    exists res w',
      match GetSamlResponse_run application user samlRequest host w with
      | Return (x, w') => Return (values x, w')
      | Panic v => Panic v
      end = Return (res, (if replyUrl =? "" then acs else replyUrl),
                    selectedMethod application, None, w')).
  { intros Hdest Hs.
    destruct (GetSamlResponse_run_completes user host w Hd Hv Hc Hdest Hs)
      as (x & w' & Hrun & Hsite).
    destruct (GetSamlResponse_run_L318 _ _ _ _ Hd Hrun Hsite) as (res & Hx & _).
    exists res, w'. rewrite Hrun, Hx. reflexivity. }
  unfold selectedMethod in *. fold replyUrl in Hback, Hforth.
  split; [|split].
  - intros Hreply. apply String.eqb_neq in Hreply. rewrite Hreply in *.
    apply String.eqb_neq in Hreply. split; [exact Hback|]. intros Hs. apply Hforth; tauto.
  - intros Hreply Hacs. pose proof Hreply as Hr. apply String.eqb_eq in Hr. rewrite Hr in *.
    split; [exact Hback|]. intros Hs. apply Hforth; tauto.
  - intros Hreply Hacs. decoded Hd. unfold GetSamlResponse_run.
    rewrite Hbase64, Hinflate, Hxml, Hv. cbv beta iota zeta delta [negb].
    unfold certified in Hc.
    destruct (pem_Decode _) as [block|]; [|contradiction].
    fold replyUrl. fold acs. rewrite Hreply, Hacs. split; reflexivity.
Qed.

(** C7 (amended). After decoding, the later stages of [GetSamlResponse]
    never change the ID and the issuer of the request; they overwrite
    its consumer-service URL with the application's reply URL when that
    is set (line 271) and leave it alone otherwise. *)
Theorem authnRequest_after_decoding application user samlRequest host w request x w' :
  decodes samlRequest request ->
  GetSamlResponse_run application user samlRequest host w = Return (x, w') ->
  exists r,
    authnRequest x = Some r
    /\ saml.ID r = saml.ID request
    /\ saml.Issuer_ r = saml.Issuer_ request
    /\ (Application.SamlReplyUrl application = "" \/ site x = L260 ->
        r = request)
    /\ (Application.SamlReplyUrl application <> "" -> site x <> L260 ->
        saml.AssertionConsumerServiceURL r
        = Application.SamlReplyUrl application).
Proof.
  intros Hd H. decoded Hd.
  run_cases H; try discriminate H; try congruence.
  all: injection H as <- <-; simpl.
  all: repeat match goal with
         | E : (_ =? _) = true |- _ => apply String.eqb_eq in E
         | E : (_ =? _) = false |- _ => apply String.eqb_neq in E
         end.
  all: assert (request = a0) by congruence; subst a0.
  all: eexists; split; [reflexivity|]; simpl.
  all: repeat split; try reflexivity; try tauto; try congruence.
  all: intros [?|?]; congruence.
Qed.

(** The document of a run answers the decoded request. *)
Lemma GetSamlResponse_run_InResponseTo application user samlRequest host w request x w' doc :
  decodes samlRequest request ->
  GetSamlResponse_run application user samlRequest host w = Return (x, w') ->
  samlResponse x = Some doc ->
  etree.SelectAttr doc "InResponseTo"
  = Some (attr "InResponseTo" (saml.ID request)).
Proof.
  intros Hd H. decoded Hd.
  run_cases H; try discriminate H; try congruence.
  all: injection H as <- <-; cbn [samlResponse]; try discriminate.
  all: assert (request = a0) by congruence; subst a0.
  all: intros [= <-]; try rewrite SelectAttr_insertChildAt; reflexivity.
Qed.

(** When the signer fails, its error is dropped (line 294 overwrites
    it) and inserting the nil signature panics. *)
Lemma GetSamlResponse_without_signature application user samlRequest host w request :
  decodes samlRequest request ->
  IsRedirectUriValid application (saml.Url (saml.Issuer_ request)) = true ->
  certified application ->
  Application.SamlReplyUrl application <> ""
  \/ saml.AssertionConsumerServiceURL request <> "" ->
  (forall block e,
     fst (ConstructSignature (signingContext application block) e true)
     = None) ->
  GetSamlResponse application user samlRequest host w = Panic nilDereference.
Proof.
  intros Hd Hv Hc Hdest Hsign. decoded Hd. unfold certified in Hc.
  unfold GetSamlResponse.
  destruct (GetSamlResponse_run application user samlRequest host w)
    as [[x w']|v] eqn:H.
  - exfalso. run_cases H; try discriminate H; try congruence.
    all: repeat match goal with
         | E : (_ =? _) = true |- _ => apply String.eqb_eq in E
         | E : (_ =? _) = false |- _ => apply String.eqb_neq in E
         end.
    all: try (assert (request = a0) by congruence; subst a0; tauto).
    all: match goal with
         | E : ConstructSignature _ ?e true = (Some _, _),
           B : pem_Decode _ = Some ?b |- _ =>
             pose proof (eq_trans (eq_sym (f_equal fst E)) (Hsign b e));
             discriminate
         end.
  - run_cases H; try discriminate H; try congruence.
Qed.

(** C10 (amended). On failure [GetSamlResponse] returns the empty string
    as the method at lines 250 (decompression), 273 (no destination),
    308 and 312 (compression write and close), ["GET"] at lines 242, 255
    and 260 (base64, unmarshalling, issuer), and the selected method at
    lines 296 and 304 (serialization, creating the compressor); line 318
    is not a failure. *)
Theorem GetSamlResponse_failure_methods application user samlRequest host w x w' :
  GetSamlResponse_run application user samlRequest host w = Return (x, w') ->
  failed x ->
  match site x with
  | L250 | L273 | L308 | L312 => methodOf x = ""
  | L242 | L255 | L260 => methodOf x = "GET"
  | L296 | L304 => methodOf x = selectedMethod application
  | L318 => False
  end.
Proof.
  intros H Hf. destruct (GetSamlResponse_run_methods _ _ _ _ _ H) as [Hm Hs].
  apply Hs in Hf. rewrite Hm. destruct (site x); try reflexivity. congruence.
Qed.

End Pipeline.

(** ** Properties of the documents *)

Lemma append_empty s : s ++ "" = s.
Proof. induction s; simpl; congruence. Qed.

Lemma Text_leaf tag attrs text : etree.Text (leaf tag attrs text) = text.
Proof.
  unfold leaf, node, etree.setText, etree.Text, etree.charData. simpl.
  destruct (text =? "") eqn:E; simpl.
  - apply String.eqb_eq in E. congruence.
  - apply append_empty.
Qed.

Lemma ChildElements_node tag attrs children :
  etree.ChildElements (node tag attrs children) = children.
Proof.
  unfold etree.ChildElements, node. simpl.
  induction children; simpl; congruence.
Qed.

Section Documents.
Context {P : Platform}.

(** C2. The [InResponseTo] attribute of the response document is the ID
    of the request: in the document [NewSamlResponse] returns, in the
    one [NewSamlResponse11] returns (it returns one unless flattening
    the principal fails), and in the document a run of
    [GetSamlResponse] builds for the request it decoded. *)
Theorem InResponseTo_is_request_ID :
  (forall user host certificate destination iss requestId redirectUri w,
     exists doc w',
       NewSamlResponse user host certificate destination iss requestId
                       redirectUri w = Return (doc, None, w')
       /\ etree.SelectAttr doc "InResponseTo"
          = Some (attr "InResponseTo" requestId))
  /\ (forall user requestID host w,
        match NewSamlResponse11 user requestID host w with
        | Return (doc, _) =>
            etree.SelectAttr doc "InResponseTo"
            = Some (attr "InResponseTo" requestID)
        | Panic _ => snd (json.Unmarshal (fst (json.Marshal user)) []) <> None
        end)
  /\ (forall application user samlRequest host w request x w' doc,
        decodes samlRequest request ->
        GetSamlResponse_run application user samlRequest host w
        = Return (x, w') ->
        samlResponse x = Some doc ->
        etree.SelectAttr doc "InResponseTo"
        = Some (attr "InResponseTo" (saml.ID request))).
Proof.
  split; [|split].
  - intros. rewrite NewSamlResponse_builds. eexists. eexists.
    split; reflexivity.
  - intros. rewrite NewSamlResponse11_builds.
    destruct (json.Unmarshal _ _) as [tmp [err|]]; simpl.
    + discriminate.
    + reflexivity.
  - intros. eapply GetSamlResponse_run_InResponseTo; eassumption.
Qed.

(** C6. In the document [NewSamlResponse] returns, the one
    [AudienceRestriction] element of the conditions has no attribute
    and exactly these children, in this order: an [Audience] for the
    request issuer URL, then one for each redirect URI. *)
Theorem NewSamlResponse_audience_restriction user host certificate destination iss requestId redirectUri w :
  exists doc w' conditions audience,
    NewSamlResponse user host certificate destination iss requestId
                    redirectUri w = Return (doc, None, w')
    /\ etree.FindElementPath doc ["saml:Assertion"; "saml:Conditions"]
       = Some conditions
    /\ etree.SelectElements conditions "saml:AudienceRestriction" = [audience]
    /\ etree.Attrs audience = []
    /\ etree.Child audience
       = map etree.TokElement (map (leaf "saml:Audience" []) (iss :: redirectUri))
    /\ map etree.Text (etree.ChildElements audience) = iss :: redirectUri.
Proof.
  rewrite NewSamlResponse_builds. do 4 eexists.
  split; [reflexivity|]. split; [reflexivity|]. split; [reflexivity|].
  split; [reflexivity|]. split; [reflexivity|].
  rewrite ChildElements_node, map_map.
  rewrite <- (map_id (iss :: redirectUri)) at 2.
  apply map_ext. intros. apply Text_leaf.
Qed.

(** C5. With a clock fixed at [t], both builders stamp the issue
    instants with the text of [t] and every [NotOnOrAfter] with the
    text of [t] plus [24 * time.Hour], an instant strictly after [t] and
    exactly 24 hours from it. *)
Theorem validity_window_is_24_hours w t :
  (forall n, clock w n = t) ->
  let issueInstant := Format_RFC3339 t in
  let notOnOrAfter := Format_RFC3339 (time.Add t (24 * time.Hour)%Z) in
  time.Sub (time.Add t (24 * time.Hour)%Z) t = (24 * time.Hour)%Z
  /\ time.After (time.Add t (24 * time.Hour)%Z) t = true
  /\ (forall user host certificate destination iss requestId redirectUri,
        exists doc w' assertion conditions confirmation statement,
          NewSamlResponse user host certificate destination iss requestId
                          redirectUri w = Return (doc, None, w')
          /\ etree.SelectAttrValue doc "IssueInstant" "" = issueInstant
          /\ etree.FindElementPath doc ["saml:Assertion"] = Some assertion
          /\ etree.SelectAttrValue assertion "IssueInstant" "" = issueInstant
          /\ etree.FindElementPath assertion ["saml:Conditions"] = Some conditions
          /\ etree.SelectAttrValue conditions "NotBefore" "" = issueInstant
          /\ etree.SelectAttrValue conditions "NotOnOrAfter" "" = notOnOrAfter
          /\ etree.FindElementPath assertion
               ["saml:Subject"; "saml:SubjectConfirmation";
                "saml:SubjectConfirmationData"] = Some confirmation
          /\ etree.SelectAttrValue confirmation "NotOnOrAfter" "" = notOnOrAfter
          /\ etree.FindElementPath assertion ["saml:AuthnStatement"] = Some statement
          /\ etree.SelectAttrValue statement "AuthnInstant" "" = issueInstant
          /\ etree.SelectAttrValue statement "SessionNotOnOrAfter" "" = notOnOrAfter)
  /\ (forall user requestID host,
        match NewSamlResponse11 user requestID host w with
        | Return (doc, _) =>
            exists assertion conditions,
              etree.SelectAttrValue doc "IssueInstant" "" = issueInstant
              /\ etree.FindElementPath doc ["saml:Assertion"] = Some assertion
              /\ etree.SelectAttrValue assertion "IssueInstant" "" = issueInstant
              /\ etree.FindElementPath assertion ["saml:Conditions"] = Some conditions
              /\ etree.SelectAttrValue conditions "NotBefore" "" = issueInstant
              /\ etree.SelectAttrValue conditions "NotOnOrAfter" "" = notOnOrAfter
        | Panic _ => snd (json.Unmarshal (fst (json.Marshal user)) []) <> None
        end).
Proof.
  intros Hclock issueInstant notOnOrAfter.
  assert (Hmul : (time.Hour * 24 = 24 * time.Hour)%Z) by reflexivity.
  split; [unfold time.Sub, time.Add; lia|].
  split; [unfold time.After, time.Add; apply Z.ltb_lt; unfold time.Hour, time.Minute, time.Second, time.Nanosecond; lia|].
  split.
  - intros. rewrite NewSamlResponse_builds, !Hclock, Hmul.
    do 6 eexists. repeat split; reflexivity.
  - intros. rewrite NewSamlResponse11_builds, !Hclock, Hmul.
    destruct (json.Unmarshal _ _) as [tmp [err|]]; simpl snd.
    + discriminate.
    + do 2 eexists. repeat split; reflexivity.
Qed.

(** C8. The metadata document [GetSamlMeta] returns has the
    single-sign-on location
    [{originFrontend}/login/saml/authorize/{owner}/{name}] and the
    HTTP-Redirect binding; the call returns one unless the
    application's certificate holds no PEM block. *)
Theorem GetSamlMeta_single_sign_on_location application host :
  match GetSamlMeta application host with
  | Return (d, err) =>
      err = None
      /\ Location (SingleSignOnService_ (IdpSSODescriptor_ d))
         = fst (getOriginFromHost host) ++ "/login/saml/authorize/"
           ++ Application.Owner application ++ "/" ++ Application.Name application
      /\ Binding (SingleSignOnService_ (IdpSSODescriptor_ d))
         = "urn:oasis:names:tc:SAML:2.0:bindings:HTTP-Redirect"
  | Panic _ => ~ certified application
  end.
Proof.
  unfold GetSamlMeta, certified.
  destruct (pem_Decode _) as [block|].
  - destruct (getOriginFromHost host) as [originFrontend originBackend].
    repeat split.
  - intros H. apply H. reflexivity.
Qed.

(** C9. When unmarshalling the principal's JSON form into the
    string-to-string map fails, [NewSamlResponse11] panics with that
    error and returns nothing; otherwise it returns a document. Some
    principals make it fail: one with a role. *)
Theorem NewSamlResponse11_panics_when_flattening_fails :
  (forall user requestID host w,
     match snd (json.Unmarshal (fst (json.Marshal user)) []) with
     | Some err => NewSamlResponse11 user requestID host w = Panic err
     | None => exists doc w', NewSamlResponse11 user requestID host w = Return (doc, w')
     end)
  /\ (forall requestID host w,
        exists user err, NewSamlResponse11 user requestID host w = Panic err).
Proof.
  split.
  - intros. rewrite NewSamlResponse11_builds.
    destruct (json.Unmarshal _ _) as [tmp [err|]]; simpl snd.
    + reflexivity.
    + eexists. eexists. reflexivity.
  - intros. exists Stub.admin, (json.UnmarshalTypeError (json.Array [json.Str "admin"])).
    rewrite NewSamlResponse11_builds. reflexivity.
Qed.

End Documents.

(** ** Concrete runs *)

Module Runs.
Import Stub.

Lemma stub_decodes request cert samlRequest :
  decodes (P := platform request cert None) samlRequest request.
Proof.
  exists (list_byte_of_string samlRequest), (list_byte_of_string samlRequest).
  repeat split.
Defined.

Lemma stub_certified request fault application :
  certified (P := platform request goodCert fault) application.
Proof. unfold certified. simpl. discriminate. Defined.

Lemma stub_signsAndEncodes request application :
  signsAndEncodes (P := platform request goodCert None) application.
Proof. repeat split; simpl; discriminate. Defined.

Ltac reach request cert fault application :=
  exists request, cert, fault, application; do 2 eexists;
  split; vm_compute; reflexivity.

(** Every [return] statement is reached. *)
Lemma every_site_is_reached (s : ReturnSite) :
  exists request cert fault application x w',
    GetSamlResponse_run (P := platform request cert fault) application alice
                        "" "idp" world = Return (x, w')
    /\ site x = s.
Proof.
  destruct s.
  - reach request goodCert (Some L242) app.
  - reach request goodCert (Some L250) app.
  - reach request goodCert (Some L255) app.
  - reach strangerRequest goodCert (@None ReturnSite) app.
  - reach requestWithoutACS goodCert (@None ReturnSite) app.
  - reach request goodCert (Some L296) app.
  - reach request goodCert (Some L304) appCompressing.
  - reach request goodCert (Some L308) appCompressing.
  - reach request goodCert (Some L312) appCompressing.
  - reach request goodCert (@None ReturnSite) app.
Qed.

Lemma GetSamlResponse_issuer_gate_witness :
  GetSamlResponse (P := platform strangerRequest goodCert None) app alice
                  "" "idp" world
  = Return ("", "", "GET",
            Some (UnauthorizedIssuerError "https://evil.example"), world).
Proof.
  refine (proj2 (proj1 (@GetSamlResponse_issuer_gate
                          (platform strangerRequest goodCert None)
                          app alice "" "idp" world strangerRequest
                          (@stub_decodes _ _ _)) _)).
  simpl. intros [H|[]]. discriminate H.
Defined.

Lemma InResponseTo_is_request_ID_witness :
  exists x w' doc,
    GetSamlResponse_run (P := platform request goodCert None) app alice
                        "" "idp" world = Return (x, w')
    /\ samlResponse x = Some doc
    /\ etree.SelectAttr doc "InResponseTo" = Some (attr "InResponseTo" "req-1").
Proof.
  do 3 eexists.
  assert (Hrun : GetSamlResponse_run (P := platform request goodCert None) app
                   alice "" "idp" world = Return (_, _))
    by (vm_compute; reflexivity).
  split; [exact Hrun|]. split; [reflexivity|].
  exact (proj2 (proj2 (@InResponseTo_is_request_ID (platform request goodCert None)))
           app alice "" "idp" world request _ _ _
           (@stub_decodes _ _ _) Hrun eq_refl).
Defined.

Lemma GetSamlResponse_method_and_destination_witness :
  (exists res w',
     GetSamlResponse (P := platform request goodCert None) appWithReplyUrl alice
                     "" "idp" world
     = Return (res, "https://sp.example/reply", "POST", None, w'))
  /\ (exists res w',
        GetSamlResponse (P := platform request goodCert None) app alice
                        "" "idp" world
        = Return (res, "https://sp.example/acs", "GET", None, w'))
  /\ GetSamlResponse (P := platform requestWithoutACS goodCert None) app alice
                     "" "idp" world
     = Return ("", "", "", Some MissingDestinationError, world).
Proof.
  split; [|split].
  - refine (proj2 (proj1 (@GetSamlResponse_method_and_destination
                            (platform request goodCert None)
                            appWithReplyUrl alice "" "idp" world request
                            (@stub_decodes _ _ _) eq_refl (@stub_certified _ _ _))
                     _) (@stub_signsAndEncodes _ _)).
    simpl. discriminate.
  - refine (proj2 (proj1 (proj2 (@GetSamlResponse_method_and_destination
                            (platform request goodCert None)
                            app alice "" "idp" world request
                            (@stub_decodes _ _ _) eq_refl (@stub_certified _ _ _)))
                     eq_refl _) (@stub_signsAndEncodes _ _)).
    simpl. discriminate.
  - exact (proj2 (proj2 (proj2 (@GetSamlResponse_method_and_destination
                            (platform requestWithoutACS goodCert None)
                            app alice "" "idp" world requestWithoutACS
                            (@stub_decodes _ _ _) eq_refl (@stub_certified _ _ _)))
                     eq_refl eq_refl)).
Defined.

Lemma validity_window_is_24_hours_witness :
  exists doc w' assertion conditions,
    NewSamlResponse (P := platform request goodCert None) alice "https://idp"
                    "CERT" "https://sp.example/acs" "https://sp.example" "req-1"
                    ["https://sp.example"] world = Return (doc, None, w')
    /\ etree.SelectAttrValue doc "IssueInstant" "" = "2026-11-01T00:00:00Z"
    /\ etree.FindElementPath doc ["saml:Assertion"] = Some assertion
    /\ etree.FindElementPath assertion ["saml:Conditions"] = Some conditions
    /\ etree.SelectAttrValue conditions "NotOnOrAfter" "" = "2026-11-02T00:00:00Z".
Proof.
  destruct (proj1 (proj2 (proj2 (@validity_window_is_24_hours
              (platform request goodCert None) world instant
              (fun _ => eq_refl))))
              alice "https://idp" "CERT" "https://sp.example/acs"
              "https://sp.example" "req-1" ["https://sp.example"])
    as (doc & w' & assertion & conditions & confirmation & statement
        & Hrun & Hissue & Ha & _ & Hc & _ & Hexpire & _).
  exists doc, w', assertion, conditions.
  repeat split; assumption.
Defined.

Lemma authnRequest_after_decoding_witness :
  exists x w' r,
    GetSamlResponse_run (P := platform request goodCert None) appWithReplyUrl
                        alice "" "idp" world = Return (x, w')
    /\ authnRequest x = Some r
    /\ saml.ID r = "req-1"
    /\ saml.Issuer_ r = saml.mkIssuer "https://sp.example"
    /\ saml.AssertionConsumerServiceURL r = "https://sp.example/reply".
Proof.
  assert (Hrun : exists x w',
             GetSamlResponse_run (P := platform request goodCert None)
               appWithReplyUrl alice "" "idp" world = Return (x, w')
             /\ site x = L318)
    by (do 2 eexists; split; vm_compute; reflexivity).
  destruct Hrun as (x & w' & Hrun & Hsite).
  destruct (@authnRequest_after_decoding (platform request goodCert None)
              appWithReplyUrl alice "" "idp" world request x w'
              (@stub_decodes _ _ _) Hrun)
    as (r & Hr & Hid & Hissuer & _ & Hacs).
  exists x, w', r. repeat split; try assumption.
  apply Hacs; [discriminate|]. rewrite Hsite. discriminate.
Defined.

Lemma GetSamlResponse_failure_methods_witness :
  exists x w',
    GetSamlResponse_run (P := platform requestWithoutACS goodCert None) app
                        alice "" "idp" world = Return (x, w')
    /\ failed x /\ site x = L273 /\ methodOf x = "".
Proof.
  do 2 eexists.
  assert (Hrun : GetSamlResponse_run (P := platform requestWithoutACS goodCert None)
                   app alice "" "idp" world = Return (_, _))
    by (vm_compute; reflexivity).
  split; [exact Hrun|].
  match goal with |- failed ?x /\ _ => assert (Hf : failed x) by discriminate end.
  split; [exact Hf|]. split; [reflexivity|].
  exact (@GetSamlResponse_failure_methods
           (platform requestWithoutACS goodCert None)
           app alice "" "idp" world _ _ Hrun Hf).
Defined.

(** C3. Where the private key of the certificate is not a PEM key, the
    signer fails with an error; [GetSamlResponse] does not return it
    but panics on the nil signature. *)
Theorem GetSamlResponse_drops_the_signature_error :
  let P := platform request keylessCert None in
  (forall block e,
     ConstructSignature (signingContext app block) e true
     = (None, Some "Invalid Key: Key must be a PEM encoded PKCS1 or PKCS8 key"))
  /\ GetSamlResponse app alice "" "idp" world = Panic nilDereference.
Proof. split; [intros; reflexivity|]. vm_compute. reflexivity. Qed.

(** C7, as stated, fails: with a reply URL set the request at the end of
    a run is not the decoded one. *)
Lemma authnRequest_is_overwritten :
  ~ (forall (P : Platform) application user samlRequest host w request x w',
       decodes samlRequest request ->
       GetSamlResponse_run application user samlRequest host w = Return (x, w') ->
       authnRequest x = Some request).
Proof.
  intros H.
  assert (Hrun : GetSamlResponse_run (P := platform request goodCert None)
                   appWithReplyUrl alice "" "idp" world = Return (_, _))
    by (vm_compute; reflexivity).
  specialize (H _ _ _ _ _ _ _ _ _ (@stub_decodes _ _ _) Hrun).
  discriminate H.
Qed.

(** C10, as stated, fails: a failure other than decompression and
    compression write or close, the missing destination of line 273,
    returns neither GET nor POST. *)
Lemma missing_destination_returns_no_method :
  ~ (forall (P : Platform) application user samlRequest host w x w',
       GetSamlResponse_run application user samlRequest host w = Return (x, w') ->
       failed x ->
       (In (site x) [L250; L308; L312] -> methodOf x = "")
       /\ (~ In (site x) [L250; L308; L312] ->
           methodOf x = "GET" \/ methodOf x = "POST")).
Proof.
  intros H.
  assert (Hrun : GetSamlResponse_run (P := platform requestWithoutACS goodCert None)
                   app alice "" "idp" world = Return (_, _))
    by (vm_compute; reflexivity).
  destruct (H _ _ _ _ _ _ _ _ Hrun) as [_ Hother].
  - discriminate.
  - destruct Hother as [Hm|Hm].
    + simpl. intros [E|[E|[E|[]]]]; discriminate E.
    + discriminate Hm.
    + discriminate Hm.
Qed.

End Runs.
